(** * smartship.carriers.posti: shipment builder and location query

    A shallow embedding of [smartship/carriers/posti.py].  Python values are
    an inductive type, dictionaries are finite maps, and the two effects of
    the module (raising an exception, calling a collaborator) are threaded
    through a small trace-and-error monad. *)

From Stdlib Require Import ZArith Ascii String SpecFloat.
From stdpp Require Import gmap strings list fin_maps.

#[local] Set Warnings "-register-all".
#[local] Open Scope string_scope.

(** ** Python values *)

(** The JSON-like values the module receives and passes on.  Floats are IEEE
    data ([spec_float]); dictionaries have string keys. *)
Inductive value : Type :=
  | VNone
  | VBool (b : bool)
  | VInt (z : Z)
  | VFloat (f : spec_float)
  | VStr (s : string)
  | VList (l : list value)
  | VDict (d : gmap string value).

(** [bool(v)]: what [if v:] tests. *)
Definition truthy (v : value) : bool :=
  match v with
  | VNone => false
  | VBool b => b
  | VInt z => negb (z =? 0)%Z
  | VFloat (S754_zero _) => false
  | VFloat _ => true
  | VStr "" => false
  | VStr _ => true
  | VList [] => false
  | VList _ => true
  | VDict d => match map_to_list d with [] => false | _ => true end
  end.

(** [v is None] *)
Definition is_None (v : value) : bool :=
  match v with VNone => true | _ => false end.

(** ** Classes, exceptions, effects *)

(** The value classes of [smartship.objects] imported by the module, and the
    two subclasses it declares. *)
Inductive class : Set :=
  | Agent | Locations | Parcels | PDFConfig | Receiver | Sender
  | SenderPartners | Service
  | MobileReceiver | WeightedParcels.

#[global] Instance class_eq_dec : EqDecision class.
Proof. solve_decision. Defined.

Inductive exn : Type :=
  | ValueError (msg : string)
  | ValidationError (c : class)
  | IndexError
  | KeyError (k : string)
  | TypeError
  | RequestException (detail : string)
  | HTTPError (status : Z).

Inductive result (A : Type) : Type :=
  | Ok (a : A)
  | Raise (e : exn).
Arguments Ok {A} a.
Arguments Raise {A} e.

#[global] Instance result_ret : MRet result := λ A a, Ok a.

#[global] Instance result_bind : MBind result := λ A B f r,
  match r with
  | Ok a => f a
  | Raise e => Raise e
  end.

(** What the module does to its collaborators, in the order it does it: a
    constructor of a value class is called, or a GET request is issued. *)
Inductive event : Type :=
  | Construct (c : class) (data : value)
  | HttpGet (url : string) (params : gmap string value).

Definition trace : Type := list event.

(** A computation extends the trace and returns or raises. *)
Definition M (A : Type) : Type := trace → result A * trace.

#[global] Instance M_ret : MRet M := λ A a tr, (Ok a, tr).

#[global] Instance M_bind : MBind M := λ A B f m tr,
  match m tr with
  | (Ok a, tr') => f a tr'
  | (Raise e, tr') => (Raise e, tr')
  end.

Definition raise {A : Type} (e : exn) : M A := λ tr, (Raise e, tr).

Definition emit (ev : event) : M unit := λ tr, (Ok tt, (tr ++ [ev])%list).

Definition lift {A : Type} (r : result A) : M A := λ tr, (r, tr).

(** Running a call from the empty trace. *)
Definition run {A : Type} (m : M A) : result A * trace := m [].

(** ** Subscripting *)

(** A str is held as the bytes of its UTF-8 encoding, while Python counts
    and subscripts a str by code point.  A byte [10xxxxxx] continues the
    code point that the last other byte started. *)
Definition is_continuation (c : ascii) : bool :=
  match c with
  | Ascii _ _ _ _ _ _ b6 b7 => b7 && negb b6
  end.

(** The continuation bytes a string starts with, and the code points that
    follow them, each with all its bytes. *)
Fixpoint split_code_points (s : string) : string * list string :=
  match s with
  | EmptyString => (EmptyString, [])
  | String c s' =>
      let (continuation, points) := split_code_points s' in
      if is_continuation c then (String c continuation, points)
      else (EmptyString, String c continuation :: points)
  end.

(** The characters of a str. *)
Definition code_points (s : string) : list string :=
  (split_code_points s).2.

(** [v[i]] for a non-negative integer literal [i]. *)
Definition getitem (v : value) (i : nat) : result value :=
  match v with
  | VList l =>
      match l !! i with
      | Some x => Ok x
      | None => Raise IndexError
      end
  | VStr s =>
      match code_points s !! i with
      | Some c => Ok (VStr c)
      | None => Raise IndexError
      end
  | VDict _ => Raise (KeyError "0")
  | _ => Raise TypeError
  end.

(** [v[k]] for a string [k]. *)
Definition getitem_key (v : value) (k : string) : result value :=
  match v with
  | VDict d =>
      match d !! k with
      | Some x => Ok x
      | None => Raise (KeyError k)
      end
  | _ => Raise TypeError
  end.

(** ** Schemas and validated objects *)

(** The part of a JSON schema the module reads or writes: the [required]
    key list, the [oneOf] alternatives, the [items] sub-schema.  Every other
    keyword of a schema is copied untouched by [deepcopy] and is kept as the
    predicate [other]. *)
Inductive schema : Type :=
  MkSchema {
    required : list string;
    oneOf : list schema;
    items : option schema;
    other : value → bool
  }.

(** A dictionary carries every key of [req]; [required] constrains
    dictionaries only. *)
Definition has_keys (req : list string) (v : value) : bool :=
  match v with
  | VDict d => forallb (λ k, bool_decide (is_Some (d !! k))) req
  | _ => true
  end.

(** Modelled from the spec: the schema check of the value classes in
    smartship/objects.py, which is not part of the sources.  A value passes
    when it carries the required fields, satisfies at least one of the
    accepted field sets if the schema lists any, and, for a list, when
    every entry passes the [items] schema. *)
Fixpoint validate (s : schema) (v : value) : bool :=
  match s with
  | MkSchema req alts it oth =>
      oth v
      && has_keys req v
      && match alts with
         | [] => true
         | _ => existsb (λ a, validate a v) alts
         end
      && match it, v with
         | Some s', VList es => forallb (validate s') es
         | _, _ => true
         end
  end.

(** Modelled from the spec: the value objects of smartship/objects.py, which
    is not part of the sources; a dictionary-like (or list-like) instance of
    a value class wrapping its data. *)
Record object : Type := Object { class_of : class; data_of : value }.

(** [o[k] = v] on a dictionary-like object. *)
Definition setitem (o : object) (k : string) (v : value) : result object :=
  match data_of o with
  | VDict d => Ok (Object (class_of o) (VDict (<[k:=v]> d)))
  | _ => Raise TypeError
  end.

(** A keyword argument of [Shipment]: a wrapped object or a plain value. *)
Inductive field : Type :=
  | FObj (o : object)
  | FRaw (v : value).

(** Modelled from the spec: the Shipment Request of smartship/shipments.py,
    which is not part of the sources; a composite value holding the fields it
    was given as keyword arguments. *)
Record Shipment : Type := MkShipment { shipment_fields : gmap string field }.

(** ** The collaborators *)

(** The schemas declared in smartship/objects.py, taken as a parameter.  The
    module assigns to [Receiver.schema["oneOf"][0]] and appends to
    [Parcels.schema["items"]["required"]] when it is loaded, so the Receiver
    schema comes with a first [oneOf] entry and the Parcels schema with an
    [items] sub-schema. *)
Record smartship_objects : Type := {
  Agent_schema : schema;
  Locations_schema : schema;
  PDFConfig_schema : schema;
  Sender_schema : schema;
  SenderPartners_schema : schema;
  Service_schema : schema;
  Receiver_required : list string;
  Receiver_oneOf_0 : schema;
  Receiver_oneOf_rest : list schema;
  Receiver_items : option schema;
  Receiver_other : value → bool;
  Parcels_required : list string;
  Parcels_oneOf : list schema;
  Parcels_items : schema;
  Parcels_other : value → bool
}.

(** The response object of the HTTP client: its status code, what
    [raise_for_status()] does and what [json()] does. *)
Record response : Type := {
  status_code : Z;
  raise_for_status : result unit;
  json : result value
}.

(** The status check of the requests library, [Response.raise_for_status],
    which is not part of the repository: it raises HTTPError for a client
    error status (400 to 499) and for a server error status (500 to 599),
    and does nothing for any other status. *)
Definition requests_raise_for_status (status : Z) : result unit :=
  if bool_decide (400 ≤ status < 600)%Z then Raise (HTTPError status)
  else Ok tt.

(** ** Constants of the module *)

Definition CARRIER_CODE : string := "POSTI".

Definition SERVICES : gmap string string :=
  list_to_map [
    ("PO2017", "Posti - EMS");
    ("PO2017D", "Posti - EMS DocPack");
    ("ITKY14I", "Posti - Express Business Day pallet (Ulkomaa)");
    ("IT14I", "Posti - Express Business Day parcel (Ulkomaa)");
    ("PO2102", "Posti - Express-paketti");
    ("PO2144", "Posti - Express-rahti");
    ("PO2104", "Posti - Kotipaketti");
    ("PO5041", "Posti - Näytelähetys");
    ("PO2108", "Posti - Palautus");
    ("PO2711", "Posti - Parcel Connect");
    ("PO2718", "Posti - Parcel Return Connect");
    ("PO2461", "Posti - Pikkupaketti");
    ("PO2103", "Posti - Postipaketti");
    ("ITPR", "Posti - Priority Parcel");
    ("PO2106", "Posti - SmartPOST Viro")
  ].

Definition NATIONAL_SERVICE_KEYS : list string :=
  ["ITPR"; "PO2102"; "PO2103"; "PO2104"; "PO2108"; "PO2144"; "PO2461";
   "PO5041"].

Definition NATIONAL_SERVICES : gmap string string :=
  filter (λ kd, kd.1 ∈ NATIONAL_SERVICE_KEYS) SERVICES.

Definition LOCATION_SERVICE_API_ENDPOINT : string :=
  "https://locationservice.posti.com/location".

(** The keyword arguments of [get_locations]; all default to [None]. *)
Record location_filters : Type := {
  country_code : value;
  top : value;
  types : value;
  lattitude : value;
  longitude : value;
  distance : value;
  bounding_box : value;
  zipcode : value;
  location_zipcode : value;
  strict_zip_code : value;
  city : value;
  municipality : value;
  pup_code : value;
  partner_type : value
}.

Definition no_filters : location_filters :=
  {| country_code := VNone; top := VNone; types := VNone; lattitude := VNone;
     longitude := VNone; distance := VNone; bounding_box := VNone;
     zipcode := VNone; location_zipcode := VNone; strict_zip_code := VNone;
     city := VNone; municipality := VNone; pup_code := VNone;
     partner_type := VNone |}.

(** [{"required": keys}] *)
Definition required_only (keys : list string) : schema :=
  MkSchema keys [] None (λ _, true).

(** The block [if bounding_box is not None: params["topLeftLat"] =
    bounding_box[0] ...] of [get_locations]: four subscripts in order, each
    stored under its own key. *)
Definition expand_bounding_box (bounding_box : value)
    (params : gmap string value) : result (gmap string value) :=
  if is_None bounding_box then Ok params
  else
    v0 ← getitem bounding_box 0;
    let params := <["topLeftLat" := v0]> params in
    v1 ← getitem bounding_box 1;
    let params := <["topLeftLng" := v1]> params in
    v2 ← getitem bounding_box 2;
    let params := <["bottomRightLat" := v2]> params in
    v3 ← getitem bounding_box 3;
    Ok (<["bottomRightLng" := v3]> params).

(** The loop [for key, value in list(params.items()): if value is None:
    params.pop(key)]. *)
Definition pop_None (params : gmap string value) : gmap string value :=
  foldl (λ params kv, if is_None kv.2 then delete kv.1 params else params)
        params (map_to_list params).

Section Posti.

Variable objects : smartship_objects.
Variable requests_get : string → gmap string value → result response.

Definition Receiver_schema : schema :=
  MkSchema (Receiver_required objects)
           (Receiver_oneOf_0 objects :: Receiver_oneOf_rest objects)
           (Receiver_items objects) (Receiver_other objects).

Definition Parcels_schema : schema :=
  MkSchema (Parcels_required objects) (Parcels_oneOf objects)
           (Some (Parcels_items objects)) (Parcels_other objects).

(** [class MobileReceiver(Receiver)]: the copied schema with its first
    [oneOf] entry overwritten.  The list of [Receiver_schema] has a first
    entry, so the assignment is in range; on an empty list Python would
    raise IndexError while the module is loaded. *)
Definition MobileReceiver_schema : schema :=
  let schema := Receiver_schema in
  MkSchema (required schema)
           (<[0%nat := required_only ["name"; "city"; "country"; "mobile"]]>
              (oneOf schema))
           (items schema) (other schema).

(** [class WeightedParcels(Parcels)]: the copied schema with ["weight"]
    appended to the [required] list of its [items], which [Parcels_schema]
    always has. *)
Definition WeightedParcels_schema : schema :=
  let schema := Parcels_schema in
  MkSchema (required schema) (oneOf schema)
           ((λ it, MkSchema (required it ++ ["weight"])%list (oneOf it)
                            (items it) (other it)) <$> items schema)
           (other schema).

Definition schema_of (c : class) : schema :=
  match c with
  | Agent => Agent_schema objects
  | Locations => Locations_schema objects
  | Parcels => Parcels_schema
  | PDFConfig => PDFConfig_schema objects
  | Receiver => Receiver_schema
  | Sender => Sender_schema objects
  | SenderPartners => SenderPartners_schema objects
  | Service => Service_schema objects
  | MobileReceiver => MobileReceiver_schema
  | WeightedParcels => WeightedParcels_schema
  end.

(** Modelled from the spec: the constructor of a value class, declared in
    smartship/objects.py; the data is checked against the schema of the
    class when the object is constructed, and a failed check raises. *)
Definition construct (c : class) (data : value) : M object :=
  emit (Construct c data);;
  if validate (schema_of c) data then mret (Object c data)
  else raise (ValidationError c).

Definition _validate_create_shipment (service_id : string) : M unit :=
  if bool_decide (service_id ∈ dom SERVICES) then mret tt
  else raise (ValueError "Invalid 'service_id'.").

Definition _infer_receiver_class (service_id : string) (agent : value)
  : class :=
  if bool_decide (service_id = "PO2104") then MobileReceiver
  else if bool_decide (service_id = "PO2103") && truthy agent
       then MobileReceiver
       else Receiver.

Definition _infer_parcels_class (service_id : string) : class :=
  if bool_decide (service_id = "PO5041") then WeightedParcels else Parcels.

Definition _build_service (addons : value) (service_id : string)
  : M object :=
  service ← construct Service (VDict {[ "id" := VStr service_id ]});
  if truthy addons then lift (setitem service "addons" addons)
  else mret service.

Definition create_shipment
    (custno : value) (service_id : string)
    (receiver sender parcels : value)
    (agent order_no sender_reference pdf_config addons : value)
  : M Shipment :=
  _validate_create_shipment service_id;;
  let receiver_class := _infer_receiver_class service_id agent in
  let parcels_class := _infer_parcels_class service_id in
  o_sender ← construct Sender sender;
  o_partners ← construct SenderPartners
    (VList [VDict (<["custNo" := custno]> {[ "id" := VStr CARRIER_CODE ]})]);
  o_receiver ← construct receiver_class receiver;
  o_parcels ← construct parcels_class parcels;
  o_service ← _build_service addons service_id;
  let kwargs : gmap string field :=
    list_to_map [
      ("sender", FObj o_sender);
      ("senderPartners", FObj o_partners);
      ("receiver", FObj o_receiver);
      ("parcels", FObj o_parcels);
      ("service", FObj o_service)
    ] in
  kwargs ← (if truthy agent
            then o_agent ← construct Agent agent;
                 mret (<["agent" := FObj o_agent]> kwargs)
            else mret kwargs);
  let kwargs :=
    if truthy order_no then <["orderNo" := FRaw order_no]> kwargs
    else kwargs in
  let kwargs :=
    if truthy sender_reference
    then <["senderReference" := FRaw sender_reference]> kwargs
    else kwargs in
  kwargs ← (if truthy pdf_config
            then o_pdf ← construct PDFConfig pdf_config;
                 mret (<["pdfConfig" := FObj o_pdf]> kwargs)
            else mret kwargs);
  mret (MkShipment kwargs).

(** The dictionary literal that opens [get_locations]. *)
Definition initial_params (a : location_filters) : gmap string value :=
  list_to_map [
    ("countryCode", country_code a);
    ("top", top a);
    ("types", types a);
    ("lat", lattitude a);
    ("lng", longitude a);
    ("distance", distance a);
    ("zipCode", zipcode a);
    ("locationZipCode", location_zipcode a);
    ("strictZipCode",
      if truthy (strict_zip_code a) then VStr "true" else VNone);
    ("city", city a);
    ("municipality", municipality a);
    ("pupCode", pup_code a);
    ("partnerType", partner_type a)
  ].

Definition get_locations (a : location_filters) : M object :=
  let params := initial_params a in
  params ← lift (expand_bounding_box (bounding_box a) params);
  let params := pop_None params in
  emit (HttpGet LOCATION_SERVICE_API_ENDPOINT params);;
  response ← lift (requests_get LOCATION_SERVICE_API_ENDPOINT params);
  lift (raise_for_status response);;
  body ← lift (json response);
  locations ← lift (getitem_key body "locations");
  construct Locations locations.

End Posti.

(** ** Sample collaborators

    Concrete schemas and a concrete endpoint on which the definitions above
    are run: a receiver or sender is given by its address fields or by a
    ["quickId"], a parcel entry by its ["copies"]. *)

Definition any_schema : schema := MkSchema [] [] None (λ _, true).

Definition sample_objects : smartship_objects := {|
  Agent_schema := any_schema;
  Locations_schema := any_schema;
  PDFConfig_schema := any_schema;
  Sender_schema :=
    MkSchema [] [required_only ["name"; "city"; "country"];
                 required_only ["quickId"]] None (λ _, true);
  SenderPartners_schema :=
    MkSchema [] [] (Some (required_only ["id"; "custNo"])) (λ _, true);
  Service_schema := required_only ["id"];
  Receiver_required := [];
  Receiver_oneOf_0 := required_only ["name"; "city"; "country"];
  Receiver_oneOf_rest := [required_only ["quickId"]];
  Receiver_items := None;
  Receiver_other := λ _, true;
  Parcels_required := [];
  Parcels_oneOf := [];
  Parcels_items := required_only ["copies"];
  Parcels_other := λ _, true
|}.

(** The receiver, sender and parcels of the docstring of [create_shipment]. *)
Definition sample_receiver : value :=
  VDict (list_to_map [
    ("name", VStr "Anders Innovations");
    ("city", VStr "Helsinki");
    ("country", VStr "FI");
    ("address1", VStr "Iso Roobertinkatu 20-22");
    ("zipcode", VStr "00120")
  ]).

Definition sample_sender : value := VDict {[ "quickId" := VStr "1" ]}.

Definition sample_parcels : value := VList [VDict {[ "copies" := VInt 1 ]}].

(** An endpoint that answers every request with the given status and body;
    its status check is that of the requests library. *)
Definition sample_endpoint (status : Z) (body : value)
  : string → gmap string value → result response :=
  λ _ _, Ok {|
    status_code := status;
    raise_for_status := requests_raise_for_status status;
    json := Ok body
  |}.

(** The floats 1.0, 2.0, 3.0 and 4.0. *)
Definition float_1 : spec_float := S754_finite false 4503599627370496 (-52).
Definition float_2 : spec_float := S754_finite false 4503599627370496 (-51).
Definition float_3 : spec_float := S754_finite false 6755399441055744 (-51).
Definition float_4 : spec_float := S754_finite false 4503599627370496 (-50).

(** ** Reading a trace and varying a call *)

(** The GET requests of a trace, in order. *)
Definition requests_of (evs : trace) : list (string * gmap string value) :=
  omap (λ ev, match ev with HttpGet u p => Some (u, p) | _ => None end) evs.

(** The call [a] with another [bounding_box] argument. *)
Definition with_bounding_box (a : location_filters) (bb : value)
  : location_filters :=
  {| country_code := country_code a; top := top a; types := types a;
     lattitude := lattitude a; longitude := longitude a;
     distance := distance a; bounding_box := bb; zipcode := zipcode a;
     location_zipcode := location_zipcode a;
     strict_zip_code := strict_zip_code a; city := city a;
     municipality := municipality a; pup_code := pup_code a;
     partner_type := partner_type a |}.

(** The call [a] with another [strict_zip_code] argument. *)
Definition with_strict_zip_code (a : location_filters) (v : value)
  : location_filters :=
  {| country_code := country_code a; top := top a; types := types a;
     lattitude := lattitude a; longitude := longitude a;
     distance := distance a; bounding_box := bounding_box a;
     zipcode := zipcode a; location_zipcode := location_zipcode a;
     strict_zip_code := v; city := city a;
     municipality := municipality a; pup_code := pup_code a;
     partner_type := partner_type a |}.

(** The parameters of [get_locations] that are passed on under a fixed
    name, with the name each is sent under. *)
Definition plain_parameters (a : location_filters) : list (string * value) :=
  [("countryCode", country_code a); ("top", top a); ("types", types a);
   ("lat", lattitude a); ("lng", longitude a); ("distance", distance a);
   ("zipCode", zipcode a); ("locationZipCode", location_zipcode a);
   ("city", city a); ("municipality", municipality a);
   ("pupCode", pup_code a); ("partnerType", partner_type a)].

(** An optional argument as [create_shipment] sees it once a falsy value is
    replaced by the default [None]. *)
Definition omitted_if_falsy (v : value) : value :=
  if truthy v then v else VNone.

(** The data [create_shipment] wraps as SenderPartners. *)
Definition partners_data (custno : value) : value :=
  VList [VDict (<["custNo" := custno]> {[ "id" := VStr CARRIER_CODE ]})].

(** The data of the Service value once [_build_service] is done with it. *)
Definition service_data (service_id : string) (addons : value) : value :=
  VDict (if truthy addons
         then <["addons" := addons]> {[ "id" := VStr service_id ]}
         else {[ "id" := VStr service_id ]}).

(** [len(v)] of a sequence. *)
Definition sequence_len (v : value) : option nat :=
  match v with
  | VList l => Some (length l)
  | VStr s => Some (length (code_points s))
  | _ => None
  end.

(** ** Sample calls *)

Definition sample_body : value := VDict {[ "locations" := VList [] ]}.

(** [get_locations(bounding_box=[1.0, 2.0, 3.0, 4.0])] *)
Definition box_filters : location_filters :=
  with_bounding_box no_filters
    (VList [VFloat float_1; VFloat float_2; VFloat float_3; VFloat float_4]).

(** [get_locations(bounding_box=[None, 2.0, 3.0, 4.0])] *)
Definition None_corner_filters : location_filters :=
  with_bounding_box no_filters
    (VList [VNone; VFloat float_2; VFloat float_3; VFloat float_4]).

(** [get_locations(bounding_box=[1.0, 2.0, 3.0])] *)
Definition short_box_filters : location_filters :=
  with_bounding_box no_filters
    (VList [VFloat float_1; VFloat float_2; VFloat float_3]).

(** [get_locations(bounding_box=[1.0, 2.0, 3.0, 4.0, 5])] *)
Definition long_box_filters : location_filters :=
  with_bounding_box no_filters
    (VList [VFloat float_1; VFloat float_2; VFloat float_3; VFloat float_4;
            VInt 5]).

(** [get_locations(bounding_box="äbc")]: three characters, four bytes. *)
Definition accented_box_filters : location_filters :=
  with_bounding_box no_filters (VStr "äbc").

(** [get_locations(top=0, zipcode="", strict_zip_code=0)] *)
Definition falsy_filters : location_filters :=
  {| country_code := VNone; top := VInt 0; types := VNone;
     lattitude := VNone; longitude := VNone; distance := VNone;
     bounding_box := VNone; zipcode := VStr ""; location_zipcode := VNone;
     strict_zip_code := VInt 0; city := VNone; municipality := VNone;
     pup_code := VNone; partner_type := VNone |}.

(** A pickup agent, a receiver with a mobile number and a parcel list with
    weights, for the services that ask for them. *)
Definition sample_agent : value := VDict {[ "quickId" := VStr "7" ]}.

Definition sample_mobile_receiver : value :=
  VDict (list_to_map [
    ("name", VStr "Anders Innovations");
    ("city", VStr "Helsinki");
    ("country", VStr "FI");
    ("mobile", VStr "+358401234567")
  ]).

Definition sample_weighted_parcels : value :=
  VList [VDict (list_to_map [("copies", VInt 1); ("weight", VInt 2)])].

(** An endpoint that cannot be reached: the GET itself raises. *)
Definition unreachable_endpoint
  : string → gmap string value → result response :=
  λ _ _, Raise (RequestException "connection refused").

(** ** The checks of a shipment, in order *)

(** The constructor calls of [create_shipment] in the order of the source,
    each with the data it is given; the agent and the PDF config are wrapped
    only when truthy. *)
Definition shipment_checks (custno : value) (service_id : string)
    (receiver sender parcels agent pdf_config : value)
  : list (class * value) :=
  ([(Sender, sender);
    (SenderPartners, partners_data custno);
    (_infer_receiver_class service_id agent, receiver);
    (_infer_parcels_class service_id, parcels);
    (Service, VDict {[ "id" := VStr service_id ]})]
   ++ (if truthy agent then [(Agent, agent)] else [])
   ++ (if truthy pdf_config then [(PDFConfig, pdf_config)] else []))%list.

(** Going through a list of constructor calls until one is refused: the
    calls made, and the class that refused its data, if any. *)
Fixpoint checked (objects : smartship_objects) (calls : list (class * value))
  : list (class * value) * option class :=
  match calls with
  | [] => ([], None)
  | (c, data) :: calls' =>
      if validate (schema_of objects c) data
      then ((c, data) :: (checked objects calls').1,
            (checked objects calls').2)
      else ([(c, data)], Some c)
  end.

(** The names a query parameter of [get_locations] can have. *)
Definition query_parameter_names : list string :=
  ["countryCode"; "top"; "types"; "lat"; "lng"; "distance"; "zipCode";
   "locationZipCode"; "strictZipCode"; "city"; "municipality"; "pupCode";
   "partnerType"; "topLeftLat"; "topLeftLng"; "bottomRightLat";
   "bottomRightLng"].

(** * Properties *)

(** ** The None-dropping loop *)

Lemma foldl_pop_absent (l : list (string * value)) (m : gmap string value) k :
  m !! k = None →
  foldl (λ params kv, if is_None kv.2 then delete kv.1 params else params)
        m l !! k = None.
Proof.
  revert m. induction l as [|[k' v] l IH]; intros m Hm; simpl; [done|].
  apply IH. destruct (is_None v); [|done].
  destruct (decide (k' = k)) as [->|Hne].
  - apply lookup_delete_eq.
  - by rewrite lookup_delete_ne.
Qed.

Lemma foldl_pop_hit (l : list (string * value)) (m : gmap string value) k v :
  (k, v) ∈ l → is_None v = true →
  foldl (λ params kv, if is_None kv.2 then delete kv.1 params else params)
        m l !! k = None.
Proof.
  revert m. induction l as [|[k' v'] l IH]; intros m Hin Hv.
  - by apply elem_of_nil in Hin.
  - apply elem_of_cons in Hin as [Heq|Hin]; simpl.
    + injection Heq as <- <-. rewrite Hv.
      apply foldl_pop_absent, lookup_delete_eq.
    + by apply IH.
Qed.

Lemma foldl_pop_miss (l : list (string * value)) (m : gmap string value) k :
  (∀ v, (k, v) ∈ l → is_None v = false) →
  foldl (λ params kv, if is_None kv.2 then delete kv.1 params else params)
        m l !! k = m !! k.
Proof.
  revert m. induction l as [|[k' v'] l IH]; intros m Hall; simpl; [done|].
  rewrite IH.
  - destruct (is_None v') eqn:Hv'; [|done].
    destruct (decide (k' = k)) as [->|Hne].
    + rewrite (Hall v') in Hv'; [done|]. apply elem_of_cons. by left.
    + by rewrite lookup_delete_ne.
  - intros v Hin. apply Hall, elem_of_cons. by right.
Qed.

(** The loop removes exactly the keys bound to [None]. *)
Lemma pop_None_lookup (params : gmap string value) k :
  pop_None params !! k =
    match params !! k with
    | Some v => if is_None v then None else Some v
    | None => None
    end.
Proof.
  unfold pop_None. destruct (params !! k) as [v|] eqn:Hk.
  - destruct (is_None v) eqn:Hv.
    + apply foldl_pop_hit with v; [|done]. by apply elem_of_map_to_list.
    + rewrite foldl_pop_miss; [done|].
      intros v' Hin. apply elem_of_map_to_list in Hin. congruence.
  - by apply foldl_pop_absent.
Qed.

(** ** What [get_locations] sends *)

Section LocationQuery.

Variable objects : smartship_objects.
Variable requests_get : string → gmap string value → result response.

(** A failing subscript of the bounding box ends the call before anything is
    sent. *)
Lemma get_locations_raises_early a e :
  expand_bounding_box (bounding_box a) (initial_params a) = Raise e →
  run (get_locations objects requests_get a) = (Raise e, []).
Proof.
  intros H. unfold run, get_locations, mbind, M_bind, lift. by rewrite H.
Qed.

(** Otherwise exactly one request is issued, to the fixed endpoint, with the
    expanded parameters minus those bound to [None]. *)
Lemma get_locations_requests a ps :
  expand_bounding_box (bounding_box a) (initial_params a) = Ok ps →
  requests_of (run (get_locations objects requests_get a)).2 =
    [(LOCATION_SERVICE_API_ENDPOINT, pop_None ps)].
Proof.
  intros H. unfold run, get_locations, mbind, M_bind, lift, emit.
  rewrite H. simpl.
  destruct (requests_get _ _) as [r|]; [|done].
  destruct (raise_for_status r); [|done].
  destruct (json r) as [body|]; [|done].
  destruct (getitem_key body "locations") as [locs|]; [|done].
  unfold construct, mbind, M_bind, emit, mret, M_ret, raise. simpl.
  by destruct (validate _ _).
Qed.

Lemma expand_bounding_box_other bb params ps k :
  expand_bounding_box bb params = Ok ps →
  k ≠ "topLeftLat" → k ≠ "topLeftLng" →
  k ≠ "bottomRightLat" → k ≠ "bottomRightLng" →
  ps !! k = params !! k.
Proof.
  unfold expand_bounding_box, mbind, result_bind. intros H ? ? ? ?.
  destruct (is_None bb); [by injection H as <-|].
  destruct (getitem bb 0); [|done]. destruct (getitem bb 1); [|done].
  destruct (getitem bb 2); [|done]. destruct (getitem bb 3); [|done].
  injection H as <-. by rewrite !lookup_insert_ne.
Qed.

Lemma initial_params_strictZipCode a :
  initial_params a !! "strictZipCode" =
    Some (if truthy (strict_zip_code a) then VStr "true" else VNone).
Proof. reflexivity. Qed.


Lemma pop_None_insert (m : gmap string value) k v :
  is_None v = false → pop_None (<[k:=v]> m) = <[k:=v]> (pop_None m).
Proof.
  intros Hv. apply map_eq. intros k'.
  rewrite pop_None_lookup. destruct (decide (k = k')) as [->|Hne].
  - by rewrite !lookup_insert_eq, Hv.
  - by rewrite !lookup_insert_ne, pop_None_lookup.
Qed.

Lemma expand_bounding_box_list v0 v1 v2 v3 extra params :
  expand_bounding_box (VList (v0 :: v1 :: v2 :: v3 :: extra)) params =
    Ok (<["bottomRightLng" := v3]> (<["bottomRightLat" := v2]>
         (<["topLeftLng" := v1]> (<["topLeftLat" := v0]> params)))).
Proof. reflexivity. Qed.

Lemma expand_bounding_box_short bb params n :
  sequence_len bb = Some n → n < 4 →
  expand_bounding_box bb params = Raise IndexError.
Proof.
  destruct bb as [| | | |s|l|]; cbn [sequence_len]; intros [= <-] Hn;
    unfold expand_bounding_box, getitem; cbn [is_None].
  - destruct (code_points s) as [|c0 [|c1 [|c2 [|c3 cs]]]];
      simpl in *; (reflexivity || lia).
  - destruct l as [|x0 [|x1 [|x2 [|x3 l]]]]; simpl in *; (reflexivity || lia).
Qed.

Lemma expand_bounding_box_long bb params n :
  sequence_len bb = Some n → (4 ≤ n)%nat →
  ∃ ps, expand_bounding_box bb params = Ok ps.
Proof.
  destruct bb as [| | | |s|l|]; cbn [sequence_len]; intros [= <-] Hn;
    unfold expand_bounding_box, getitem; cbn [is_None].
  - destruct (code_points s) as [|c0 [|c1 [|c2 [|c3 cs]]]];
      simpl in *; try lia. by eexists.
  - destruct l as [|x0 [|x1 [|x2 [|x3 l]]]]; simpl in *; try lia.
    by eexists.
Qed.

(** C4: the strictZipCode query parameter is the string "true" when
    strict_zip_code is truthy and is left out of the query otherwise; it is
    never sent as "false".  In particular get_locations() and
    get_locations(strict_zip_code=False) each send one request without it. *)
Theorem strict_zip_code_true_or_omitted (a : location_filters) :
  (∀ u p,
     (u, p) ∈ requests_of (run (get_locations objects requests_get a)).2 →
     p !! "strictZipCode" =
       if truthy (strict_zip_code a) then Some (VStr "true") else None)
  ∧ (is_None (bounding_box a) = true →
     ∃ p, requests_of (run (get_locations objects requests_get a)).2 =
            [(LOCATION_SERVICE_API_ENDPOINT, p)])
  ∧ (∃ p, requests_of (run (get_locations objects requests_get no_filters)).2
            = [(LOCATION_SERVICE_API_ENDPOINT, p)]
          ∧ p !! "strictZipCode" = None)
  ∧ (∃ p, requests_of (run (get_locations objects requests_get
                              (with_strict_zip_code no_filters (VBool false)))).2
            = [(LOCATION_SERVICE_API_ENDPOINT, p)]
          ∧ p !! "strictZipCode" = None).
Proof.
  split; [|split; [|split]].
  - intros u p Hin.
    destruct (expand_bounding_box (bounding_box a) (initial_params a))
      as [ps|e] eqn:Hps.
    + rewrite (get_locations_requests _ _ Hps) in Hin.
      apply list_elem_of_singleton in Hin as [= -> ->].
      rewrite pop_None_lookup.
      rewrite (expand_bounding_box_other _ _ _ _ Hps) by done.
      rewrite initial_params_strictZipCode.
      by destruct (truthy (strict_zip_code a)).
    + rewrite (get_locations_raises_early _ _ Hps) in Hin.
      by apply elem_of_nil in Hin.
  - intros Hbb. eexists. apply get_locations_requests.
    unfold expand_bounding_box. by rewrite Hbb.
  - eexists. split; [by apply get_locations_requests|reflexivity].
  - eexists. split; [by apply get_locations_requests|reflexivity].
Qed.

Lemma initial_params_with_bounding_box a bb :
  initial_params (with_bounding_box a bb) = initial_params a.
Proof. reflexivity. Qed.

(** C6, amended: a 4-element bounding_box [v0, v1, v2, v3] is sent as the
    parameters topLeftLat, topLeftLng, bottomRightLat and bottomRightLng,
    each carrying its element unless that element is None, in which case
    the parameter is left out; no bounding_box or boundingBox parameter is
    sent, and every other parameter is as in the same call without a
    bounding box, which carries none of the four.  With no None among the
    elements the query is that of the call without a bounding box plus
    exactly the four parameters. *)
Theorem bounding_box_four_parameters (a : location_filters) v0 v1 v2 v3 :
  bounding_box a = VList [v0; v1; v2; v3] →
  ∃ p p0,
    requests_of (run (get_locations objects requests_get a)).2 =
      [(LOCATION_SERVICE_API_ENDPOINT, p)]
    ∧ requests_of (run (get_locations objects requests_get
                          (with_bounding_box a VNone))).2 =
        [(LOCATION_SERVICE_API_ENDPOINT, p0)]
    ∧ p !! "topLeftLat" = (if is_None v0 then None else Some v0)
    ∧ p !! "topLeftLng" = (if is_None v1 then None else Some v1)
    ∧ p !! "bottomRightLat" = (if is_None v2 then None else Some v2)
    ∧ p !! "bottomRightLng" = (if is_None v3 then None else Some v3)
    ∧ p !! "bounding_box" = None ∧ p !! "boundingBox" = None
    ∧ p0 !! "topLeftLat" = None ∧ p0 !! "topLeftLng" = None
    ∧ p0 !! "bottomRightLat" = None ∧ p0 !! "bottomRightLng" = None
    ∧ (∀ k, k ≠ "topLeftLat" → k ≠ "topLeftLng" → k ≠ "bottomRightLat" →
            k ≠ "bottomRightLng" → p !! k = p0 !! k)
    ∧ (is_None v0 = false → is_None v1 = false →
       is_None v2 = false → is_None v3 = false →
       p = <["bottomRightLng" := v3]> (<["bottomRightLat" := v2]>
             (<["topLeftLng" := v1]> (<["topLeftLat" := v0]> p0)))).
Proof.
  intros Hbb.
  pose proof (expand_bounding_box_list v0 v1 v2 v3 [] (initial_params a))
    as Hps.
  rewrite <- Hbb in Hps.
  eexists _, _. split; [by apply get_locations_requests|].
  split; [by apply get_locations_requests|].
  rewrite initial_params_with_bounding_box.
  repeat split;
    try (rewrite !pop_None_lookup, ?lookup_insert_ne by done;
         rewrite ?lookup_insert_eq; reflexivity).
  - intros k ? ? ? ?.
    by rewrite !pop_None_lookup, !lookup_insert_ne.
  - intros. by rewrite !pop_None_insert.
Qed.

(** C7: a parameter is left out of the request exactly when its value is
    None after the strictZipCode and bounding-box expansions; every other
    value, falsy or not, is sent under its name; and a call without
    arguments sends a request with no query parameter at all. *)
Theorem None_parameters_omitted (a : location_filters) ps :
  expand_bounding_box (bounding_box a) (initial_params a) = Ok ps →
  (∃ p,
     requests_of (run (get_locations objects requests_get a)).2 =
       [(LOCATION_SERVICE_API_ENDPOINT, p)]
     ∧ (∀ k, p !! k = None ↔ ps !! k = None ∨ ps !! k = Some VNone)
     ∧ (∀ k v, ps !! k = Some v → is_None v = false → p !! k = Some v)
     ∧ Forall (λ kv, p !! kv.1 = if is_None kv.2 then None else Some kv.2)
              (plain_parameters a))
  ∧ requests_of (run (get_locations objects requests_get no_filters)).2 =
      [(LOCATION_SERVICE_API_ENDPOINT, ∅)].
Proof.
  intros Hps. split.
  - exists (pop_None ps). split; [by apply get_locations_requests|].
    split; [|split].
    + intros k. rewrite pop_None_lookup.
      destruct (ps !! k) as [[]|]; simpl; intuition congruence.
    + intros k v Hk Hv. by rewrite pop_None_lookup, Hk, Hv.
    + unfold plain_parameters.
      repeat (apply Forall_cons; split;
              [simpl; rewrite pop_None_lookup,
                 (expand_bounding_box_other _ _ _ _ Hps) by done;
               reflexivity|]).
      apply Forall_nil_2.
  - by rewrite (get_locations_requests no_filters (initial_params no_filters)).
Qed.

(** C8, amended: an error raised by the status check of the response comes
    out of [get_locations] unchanged, after the one request of the call and
    with nothing returned; with the requests library that is the HTTPError
    of a status from 400 to 599.  Any other status, among them the non-2xx
    statuses below 400, passes the check, and the call goes on to decode
    the body and returns its locations. *)
Theorem error_status_raises (a : location_filters) ps r :
  expand_bounding_box (bounding_box a) (initial_params a) = Ok ps →
  requests_get LOCATION_SERVICE_API_ENDPOINT (pop_None ps) = Ok r →
  (∀ e, raise_for_status r = Raise e →
        run (get_locations objects requests_get a) =
          (Raise e, [HttpGet LOCATION_SERVICE_API_ENDPOINT (pop_None ps)]))
  ∧ (raise_for_status r = requests_raise_for_status (status_code r) →
     (400 ≤ status_code r < 600)%Z →
     run (get_locations objects requests_get a) =
       (Raise (HTTPError (status_code r)),
        [HttpGet LOCATION_SERVICE_API_ENDPOINT (pop_None ps)]))
  ∧ (raise_for_status r = requests_raise_for_status (status_code r) →
     ¬ (400 ≤ status_code r < 600)%Z →
     raise_for_status r = Ok tt
     ∧ ∀ body locations,
         json r = Ok (VDict body) →
         body !! "locations" = Some locations →
         validate (schema_of objects Locations) locations = true →
         run (get_locations objects requests_get a) =
           (Ok (Object Locations locations),
            [HttpGet LOCATION_SERVICE_API_ENDPOINT (pop_None ps);
             Construct Locations locations])).
Proof.
  intros Hps Hget.
  assert (∀ e, raise_for_status r = Raise e →
               run (get_locations objects requests_get a) =
                 (Raise e,
                  [HttpGet LOCATION_SERVICE_API_ENDPOINT (pop_None ps)]))
    as Hraises.
  { intros e He. unfold run, get_locations, mbind, M_bind, lift, emit.
    rewrite Hps. cbv beta iota. by rewrite Hget, He. }
  split; [exact Hraises|]. split.
  - intros Hcheck Hstatus. apply Hraises. rewrite Hcheck.
    unfold requests_raise_for_status.
    by rewrite (bool_decide_eq_true_2 _ Hstatus).
  - intros Hcheck Hstatus.
    assert (raise_for_status r = Ok tt) as Hpasses.
    { rewrite Hcheck. unfold requests_raise_for_status.
      by rewrite (bool_decide_eq_false_2 _ Hstatus). }
    split; [exact Hpasses|].
    intros body locations Hjson Hbody Hvalid.
    unfold run, get_locations, mbind, M_bind, lift, emit.
    rewrite Hps. cbv beta iota. rewrite Hget, Hpasses, Hjson.
    unfold getitem_key. rewrite Hbody. cbv beta iota.
    unfold construct, mbind, M_bind, emit, mret, M_ret, raise.
    by rewrite Hvalid.
Qed.

(** C9: a bounding_box that is a sequence of fewer than four elements makes
    the call raise IndexError with nothing sent; a sequence of four or more
    is accepted and one request is sent, and of a list the first four
    elements are the corners of that request while the elements after them
    are read nowhere. *)
Theorem bounding_box_first_four (a : location_filters) n :
  sequence_len (bounding_box a) = Some n →
  (n < 4 →
   run (get_locations objects requests_get a) = (Raise IndexError, []))
  ∧ (∀ l, bounding_box a = VList l →
          run (get_locations objects requests_get a) =
          run (get_locations objects requests_get
                 (with_bounding_box a (VList (take 4 l)))))
  ∧ ((4 ≤ n)%nat →
     ∃ p, requests_of (run (get_locations objects requests_get a)).2 =
            [(LOCATION_SERVICE_API_ENDPOINT, p)])
  ∧ (∀ v0 v1 v2 v3 extra,
       bounding_box a = VList (v0 :: v1 :: v2 :: v3 :: extra) →
       requests_of (run (get_locations objects requests_get a)).2 =
         [(LOCATION_SERVICE_API_ENDPOINT,
           pop_None (<["bottomRightLng" := v3]> (<["bottomRightLat" := v2]>
                       (<["topLeftLng" := v1]> (<["topLeftLat" := v0]>
                          (initial_params a))))))]).
Proof.
  intros Hlen. split; [|split; [|split]].
  - intros Hn. apply get_locations_raises_early.
    by apply expand_bounding_box_short with n.
  - intros l Hl. unfold run, get_locations.
    rewrite initial_params_with_bounding_box. simpl bounding_box. rewrite Hl.
    by destruct l as [|x0 [|x1 [|x2 [|x3 l]]]].
  - intros Hn.
    destruct (expand_bounding_box_long _ (initial_params a) _ Hlen Hn)
      as [ps Hps].
    eexists. by apply get_locations_requests.
  - intros v0 v1 v2 v3 extra Hbox. apply get_locations_requests.
    rewrite Hbox. apply expand_bounding_box_list.
Qed.

Lemma expand_bounding_box_lookup bb params ps k v :
  expand_bounding_box bb params = Ok ps →
  ps !! k = Some v →
  k ∈ ["topLeftLat"; "topLeftLng"; "bottomRightLat"; "bottomRightLng"]
  ∨ params !! k = Some v.
Proof.
  intros Hps Hk.
  destruct (decide (k = "topLeftLat")) as [->|?];
    [left; apply list_elem_of_here|].
  destruct (decide (k = "topLeftLng")) as [->|?];
    [left; do 1 apply list_elem_of_further; apply list_elem_of_here|].
  destruct (decide (k = "bottomRightLat")) as [->|?];
    [left; do 2 apply list_elem_of_further; apply list_elem_of_here|].
  destruct (decide (k = "bottomRightLng")) as [->|?];
    [left; do 3 apply list_elem_of_further; apply list_elem_of_here|].
  right. by rewrite <- (expand_bounding_box_other _ _ _ _ Hps).
Qed.

Lemma initial_params_names a k v :
  initial_params a !! k = Some v → k ∈ query_parameter_names.
Proof.
  intros H. apply elem_of_list_to_map_2 in H.
  unfold query_parameter_names.
  repeat (apply elem_of_cons in H as [[= -> _]|H];
          [repeat first [apply list_elem_of_here
                        | apply list_elem_of_further]|]).
  by apply elem_of_nil in H.
Qed.

(** X12: whatever its arguments and whatever the endpoint does,
    [get_locations] issues at most one request; it goes to the fixed
    endpoint, none of its parameters is None, and every parameter name is
    one of the seventeen names of the query. *)
Theorem get_locations_request_shape (a : location_filters) :
  (length (requests_of (run (get_locations objects requests_get a)).2)
   ≤ 1)%nat
  ∧ ∀ u p,
      (u, p) ∈ requests_of (run (get_locations objects requests_get a)).2 →
      u = LOCATION_SERVICE_API_ENDPOINT
      ∧ ∀ k v, p !! k = Some v →
               is_None v = false ∧ k ∈ query_parameter_names.
Proof.
  destruct (expand_bounding_box (bounding_box a) (initial_params a))
    as [ps|e] eqn:Hps.
  - rewrite (get_locations_requests _ _ Hps). split; [done|].
    intros u p [= -> ->]%list_elem_of_singleton. split; [done|].
    intros k v. rewrite pop_None_lookup.
    destruct (ps !! k) as [v'|] eqn:Hk; [|done].
    destruct (is_None v') eqn:Hv'; intros [= <-]. split; [done|].
    destruct (expand_bounding_box_lookup _ _ _ _ _ Hps Hk) as [Hbox|Hinit].
    + unfold query_parameter_names.
      repeat (apply elem_of_cons in Hbox as [->|Hbox];
              [repeat first [apply list_elem_of_here
                            | apply list_elem_of_further]|]).
      by apply elem_of_nil in Hbox.
    + by apply initial_params_names in Hinit.
  - rewrite (get_locations_raises_early _ _ Hps). split; [simpl; lia|].
    by intros u p ?%elem_of_nil.
Qed.

(** X13: the loop that pops the None-valued keys leaves the dictionary
    filtered: the entries whose value is not None, unchanged; running it
    again changes nothing. *)
Theorem pop_None_filter (params : gmap string value) :
  pop_None params = filter (λ kv, is_None kv.2 = false) params
  ∧ pop_None (pop_None params) = pop_None params
  ∧ pop_None params ⊆ params.
Proof.
  assert (pop_None params = filter (λ kv, is_None kv.2 = false) params)
    as Hfilter.
  { apply map_eq. intros k. apply option_eq. intros v.
    rewrite map_lookup_filter_Some, pop_None_lookup.
    destruct (params !! k) as [v'|]; [|by split; [|intros [[=] _]]].
    destruct (is_None v') eqn:Hv'; split.
    - done.
    - intros [[= ->] Hv]. simpl in Hv. congruence.
    - by intros [= ->].
    - by intros [[= ->] _]. }
  split; [done|]. split.
  - apply map_eq. intros k. rewrite !pop_None_lookup.
    destruct (params !! k) as [v|]; [|done].
    destruct (is_None v) eqn:Hv; [done|]. by rewrite Hv.
  - rewrite Hfilter. apply map_filter_subseteq.
Qed.

(** X9: when the endpoint answers with a status that passes the check and
    a JSON object with a "locations" entry that the Locations class
    accepts, [get_locations] returns that entry wrapped as Locations, as
    the endpoint gave it, after the one request. *)
Theorem get_locations_returns (a : location_filters) ps r body locations :
  expand_bounding_box (bounding_box a) (initial_params a) = Ok ps →
  requests_get LOCATION_SERVICE_API_ENDPOINT (pop_None ps) = Ok r →
  raise_for_status r = Ok tt →
  json r = Ok (VDict body) →
  body !! "locations" = Some locations →
  validate (schema_of objects Locations) locations = true →
  run (get_locations objects requests_get a)
  = (Ok (Object Locations locations),
     [HttpGet LOCATION_SERVICE_API_ENDPOINT (pop_None ps);
      Construct Locations locations]).
Proof.
  intros Hps Hget Hstatus Hjson Hbody Hvalid.
  unfold run, get_locations, mbind, M_bind, lift, emit.
  rewrite Hps. cbv beta iota. rewrite Hget, Hstatus, Hjson.
  unfold getitem_key. rewrite Hbody. cbv beta iota.
  unfold construct, mbind, M_bind, emit, mret, M_ret, raise.
    by rewrite Hvalid.
Qed.

(** X10: an exception of the HTTP client, raised by the GET itself or by
    decoding the body, comes out of [get_locations] unchanged, after the
    one request and with nothing returned. *)
Theorem get_locations_client_errors (a : location_filters) ps e :
  expand_bounding_box (bounding_box a) (initial_params a) = Ok ps →
  requests_get LOCATION_SERVICE_API_ENDPOINT (pop_None ps) = Raise e
  ∨ (∃ r, requests_get LOCATION_SERVICE_API_ENDPOINT (pop_None ps) = Ok r
          ∧ raise_for_status r = Ok tt ∧ json r = Raise e) →
  run (get_locations objects requests_get a)
  = (Raise e, [HttpGet LOCATION_SERVICE_API_ENDPOINT (pop_None ps)]).
Proof.
  intros Hps Hclient.
  unfold run, get_locations, mbind, M_bind, lift, emit.
  rewrite Hps. cbv beta iota.
  destruct Hclient as [Hget|(r & Hget & Hstatus & Hjson)].
  - by rewrite Hget.
  - by rewrite Hget, Hstatus, Hjson.
Qed.

(** X11: a decoded body without a "locations" key makes [get_locations]
    raise KeyError for that key, a body that is not a dictionary makes it
    raise TypeError, and locations that the Locations class refuses make
    it raise ValidationError; in each case after the one request. *)
Theorem get_locations_malformed_body (a : location_filters) ps r body :
  expand_bounding_box (bounding_box a) (initial_params a) = Ok ps →
  requests_get LOCATION_SERVICE_API_ENDPOINT (pop_None ps) = Ok r →
  raise_for_status r = Ok tt →
  json r = Ok body →
  (∀ d, body = VDict d → d !! "locations" = None →
        run (get_locations objects requests_get a)
        = (Raise (KeyError "locations"),
           [HttpGet LOCATION_SERVICE_API_ENDPOINT (pop_None ps)]))
  ∧ ((∀ d, body ≠ VDict d) →
     run (get_locations objects requests_get a)
     = (Raise TypeError,
        [HttpGet LOCATION_SERVICE_API_ENDPOINT (pop_None ps)]))
  ∧ (∀ d locations,
       body = VDict d → d !! "locations" = Some locations →
       validate (schema_of objects Locations) locations = false →
       run (get_locations objects requests_get a)
       = (Raise (ValidationError Locations),
          [HttpGet LOCATION_SERVICE_API_ENDPOINT (pop_None ps);
           Construct Locations locations])).
Proof.
  intros Hps Hget Hstatus Hjson.
  unfold run, get_locations, mbind, M_bind, lift, emit.
  rewrite Hps. cbv beta iota. rewrite Hget, Hstatus, Hjson.
  unfold getitem_key. split; [|split].
  - intros d -> Hd. by rewrite Hd.
  - intros Hbody. destruct body; try done. by destruct (Hbody d).
  - intros d locations -> Hd Hvalid. rewrite Hd. cbv beta iota.
    unfold construct, mbind, M_bind, emit, mret, M_ret, raise.
    by rewrite Hvalid.
Qed.

Lemma initial_params_with_strict_zip_code a v v' :
  truthy v = truthy v' →
  initial_params (with_strict_zip_code a v)
  = initial_params (with_strict_zip_code a v').
Proof.
  intros H. unfold initial_params, with_strict_zip_code.
  cbn [country_code top types lattitude longitude distance zipcode
       location_zipcode strict_zip_code city municipality pup_code
       partner_type].
  by rewrite H.
Qed.

(** X14: [get_locations] reads strict_zip_code by its truthiness only: two
    calls that differ in this argument alone, by values that are both
    truthy or both falsy, behave alike. *)
Theorem strict_zip_code_by_truthiness (a : location_filters) v v' tr :
  truthy v = truthy v' →
  get_locations objects requests_get (with_strict_zip_code a v) tr
  = get_locations objects requests_get (with_strict_zip_code a v') tr.
Proof.
  intros H. unfold get_locations.
  by rewrite (initial_params_with_strict_zip_code a v v' H).
Qed.

Lemma pop_None_four_None (m : gmap string value) :
  m !! "topLeftLat" = None → m !! "topLeftLng" = None →
  m !! "bottomRightLat" = None → m !! "bottomRightLng" = None →
  pop_None (<["bottomRightLng" := VNone]> (<["bottomRightLat" := VNone]>
              (<["topLeftLng" := VNone]> (<["topLeftLat" := VNone]> m))))
  = pop_None m.
Proof.
  intros H0 H1 H2 H3. apply map_eq. intros k. rewrite !pop_None_lookup.
  destruct (decide (k = "bottomRightLng")) as [->|?];
    [by rewrite lookup_insert_eq, H3|rewrite lookup_insert_ne by done].
  destruct (decide (k = "bottomRightLat")) as [->|?];
    [by rewrite lookup_insert_eq, H2|rewrite lookup_insert_ne by done].
  destruct (decide (k = "topLeftLng")) as [->|?];
    [by rewrite lookup_insert_eq, H1|rewrite lookup_insert_ne by done].
  destruct (decide (k = "topLeftLat")) as [->|?];
    [by rewrite lookup_insert_eq, H0|by rewrite lookup_insert_ne].
Qed.

(** X15: a bounding box of four None elements is to [get_locations] what
    no bounding box is: the four parameters are stored and popped again,
    and the call goes on as without them. *)
Theorem all_None_bounding_box (a : location_filters) tr :
  get_locations objects requests_get
    (with_bounding_box a (VList [VNone; VNone; VNone; VNone])) tr
  = get_locations objects requests_get (with_bounding_box a VNone) tr.
Proof.
  unfold get_locations. rewrite !initial_params_with_bounding_box.
  cbn [bounding_box with_bounding_box].
  rewrite expand_bounding_box_list.
  change (expand_bounding_box VNone (initial_params a))
    with (Ok (initial_params a)).
  unfold mbind, M_bind, lift. cbv beta iota.
  by rewrite pop_None_four_None.
Qed.

(** X16: a bounding_box that is a number or a boolean cannot be
    subscripted: the call raises TypeError and nothing is sent. *)
Theorem bounding_box_not_subscriptable (a : location_filters) :
  (∃ b, bounding_box a = VBool b) ∨ (∃ z, bounding_box a = VInt z)
  ∨ (∃ f, bounding_box a = VFloat f) →
  run (get_locations objects requests_get a) = (Raise TypeError, []).
Proof.
  intros Hbox. apply get_locations_raises_early.
  by destruct Hbox as [[? ->]|[[? ->]|[? ->]]].
Qed.

End LocationQuery.

(** ** What [create_shipment] builds *)

Section ShipmentBuilder.

Variable objects : smartship_objects.

Lemma construct_run c data tr :
  construct objects c data tr =
    (if validate (schema_of objects c) data then Ok (Object c data)
     else Raise (ValidationError c), tr ++ [Construct c data])%list.
Proof.
  unfold construct, mbind, M_bind, emit, mret, M_ret, raise.
  by destruct (validate _ _).
Qed.

(** One constructor call of a run: both outcomes of its schema check. *)
Ltac run_construct :=
  match goal with
  | |- context [construct ?O ?c ?d ?tr] =>
      rewrite (construct_run c d tr);
      destruct (validate (schema_of O c) d) eqn:?;
      cbv beta iota
  end.

Ltac run_truthy v := destruct (truthy v) eqn:?; cbv beta iota.

(** The same for [if v:], where the run still tests it. *)
Ltac run_if v :=
  match goal with
  | |- context [if truthy v then _ else _] => run_truthy v
  end.

(** Every outcome of a call, one goal each. *)
Ltac run_cases addons agent pdf_config :=
  repeat run_construct; try run_if addons; repeat run_construct;
  try run_if agent; repeat run_construct;
  try run_if pdf_config; repeat run_construct.

Lemma lookup_insert_if (b : bool) k (x : field) (m : gmap string field) k' :
  (if b then <[k:=x]> else id) m !! k' =
    if decide (k = k') then (if b then Some x else m !! k') else m !! k'.
Proof.
  destruct b; case_decide; subst; try done.
  - apply lookup_insert_eq.
  - by apply lookup_insert_ne.
Qed.

(** Looking a field up in the keyword arguments of a returned shipment. *)
Ltac lookup_fields :=
  rewrite !lookup_insert_if;
  repeat (case_decide; [try discriminate|try contradiction]).

(** A shipment that is returned was built from data that passed every
    schema check, and holds exactly the fields below. *)
Lemma create_shipment_Ok_inv custno service_id receiver sender parcels
    agent order_no sender_reference pdf_config addons sh evs :
  run (create_shipment objects custno service_id receiver sender parcels
         agent order_no sender_reference pdf_config addons) = (Ok sh, evs) →
  service_id ∈ dom SERVICES
  ∧ validate (schema_of objects (_infer_receiver_class service_id agent))
             receiver = true
  ∧ validate (schema_of objects (_infer_parcels_class service_id))
             parcels = true
  ∧ shipment_fields sh =
      (if truthy pdf_config
       then <["pdfConfig" := FObj (Object PDFConfig pdf_config)]>
       else id)
      ((if truthy sender_reference
        then <["senderReference" := FRaw sender_reference]>
        else id)
       ((if truthy order_no then <["orderNo" := FRaw order_no]> else id)
        ((if truthy agent then <["agent" := FObj (Object Agent agent)]>
          else id)
         (list_to_map [
            ("sender", FObj (Object Sender sender));
            ("senderPartners", FObj (Object SenderPartners (partners_data custno)));
            ("receiver",
              FObj (Object (_infer_receiver_class service_id agent) receiver));
            ("parcels",
              FObj (Object (_infer_parcels_class service_id) parcels));
            ("service",
              FObj (Object Service (service_data service_id addons)))])))).
Proof.
  unfold run, create_shipment, _validate_create_shipment, _build_service,
    service_data, partners_data.
  generalize (_infer_receiver_class service_id agent) as rc.
  generalize (_infer_parcels_class service_id) as pc. intros pc rc.
  unfold mbind, M_bind, mret, M_ret, raise, lift, setitem.
  destruct (bool_decide (service_id ∈ dom SERVICES)) eqn:Hsid;
    [|intros; discriminate].
  apply bool_decide_eq_true in Hsid.
  do 5 (run_construct; [|intros; discriminate]).
  run_truthy addons; run_truthy agent; run_truthy pdf_config;
    repeat (run_construct; [|intros; discriminate]);
    intros [= <- <-]; cbn [shipment_fields class_of data_of];
    destruct (truthy sender_reference), (truthy order_no); repeat split;
    (assumption || reflexivity).
Qed.

(** The constructor calls of a run, whatever its outcome, are among these
    seven, in this order. *)
Lemma create_shipment_trace custno service_id receiver sender parcels
    agent order_no sender_reference pdf_config addons :
  (run (create_shipment objects custno service_id receiver sender parcels
          agent order_no sender_reference pdf_config addons)).2
  `sublist_of`
    [Construct Sender sender;
     Construct SenderPartners (partners_data custno);
     Construct (_infer_receiver_class service_id agent) receiver;
     Construct (_infer_parcels_class service_id) parcels;
     Construct Service (VDict {[ "id" := VStr service_id ]});
     Construct Agent agent;
     Construct PDFConfig pdf_config].
Proof.
  unfold run, create_shipment, _validate_create_shipment, _build_service,
    partners_data.
  generalize (_infer_receiver_class service_id agent) as rc.
  generalize (_infer_parcels_class service_id) as pc. intros pc rc.
  unfold mbind, M_bind, mret, M_ret, raise, lift, setitem.
  destruct (bool_decide (service_id ∈ dom SERVICES));
    [|apply sublist_nil_l].
  run_cases addons agent pdf_config;
    cbn [snd app];
    repeat first [apply sublist_nil_l | apply sublist_skip
                 | apply sublist_cons].
Qed.

(** With a registered service code and sender data that pass their checks,
    the receiver constructor is reached. *)
Lemma create_shipment_reaches_receiver custno service_id receiver sender
    parcels agent order_no sender_reference pdf_config addons :
  service_id ∈ dom SERVICES →
  validate (schema_of objects Sender) sender = true →
  validate (schema_of objects SenderPartners) (partners_data custno) = true →
  Construct (_infer_receiver_class service_id agent) receiver
    ∈ (run (create_shipment objects custno service_id receiver sender
              parcels agent order_no sender_reference pdf_config addons)).2.
Proof.
  unfold run, create_shipment, _validate_create_shipment, _build_service,
    partners_data.
  generalize (_infer_receiver_class service_id agent) as rc.
  generalize (_infer_parcels_class service_id) as pc. intros pc rc.
  unfold mbind, M_bind, mret, M_ret, raise, lift, setitem.
  intros Hsid Hsender Hpartners.
  rewrite (bool_decide_eq_true_2 _ Hsid). cbv beta iota.
  run_cases addons agent pdf_config; try congruence;
    cbn [snd app];
    repeat first [apply list_elem_of_here | apply list_elem_of_further].
Qed.

(** If the receiver passes as well, so is the parcels constructor. *)
Lemma create_shipment_reaches_parcels custno service_id receiver sender
    parcels agent order_no sender_reference pdf_config addons :
  service_id ∈ dom SERVICES →
  validate (schema_of objects Sender) sender = true →
  validate (schema_of objects SenderPartners) (partners_data custno) = true →
  validate (schema_of objects (_infer_receiver_class service_id agent))
           receiver = true →
  Construct (_infer_parcels_class service_id) parcels
    ∈ (run (create_shipment objects custno service_id receiver sender
              parcels agent order_no sender_reference pdf_config addons)).2.
Proof.
  unfold run, create_shipment, _validate_create_shipment, _build_service,
    partners_data.
  generalize (_infer_receiver_class service_id agent) as rc.
  generalize (_infer_parcels_class service_id) as pc. intros pc rc.
  unfold mbind, M_bind, mret, M_ret, raise, lift, setitem.
  intros Hsid Hsender Hpartners Hreceiver.
  rewrite (bool_decide_eq_true_2 _ Hsid). cbv beta iota.
  run_cases addons agent pdf_config; try congruence;
    cbn [snd app];
    repeat first [apply list_elem_of_here | apply list_elem_of_further].
Qed.

(** Parcels that fail the check of their class end the call there. *)
Lemma create_shipment_parcels_refused custno service_id receiver sender
    parcels agent order_no sender_reference pdf_config addons :
  service_id ∈ dom SERVICES →
  validate (schema_of objects Sender) sender = true →
  validate (schema_of objects SenderPartners) (partners_data custno) = true →
  validate (schema_of objects (_infer_receiver_class service_id agent))
           receiver = true →
  validate (schema_of objects (_infer_parcels_class service_id))
           parcels = false →
  run (create_shipment objects custno service_id receiver sender parcels
         agent order_no sender_reference pdf_config addons)
  = (Raise (ValidationError (_infer_parcels_class service_id)),
     [Construct Sender sender;
      Construct SenderPartners (partners_data custno);
      Construct (_infer_receiver_class service_id agent) receiver;
      Construct (_infer_parcels_class service_id) parcels]).
Proof.
  unfold run, create_shipment, _validate_create_shipment, _build_service,
    partners_data.
  generalize (_infer_receiver_class service_id agent) as rc.
  generalize (_infer_parcels_class service_id) as pc. intros pc rc.
  unfold mbind, M_bind, mret, M_ret, raise, lift, setitem.
  intros Hsid Hsender Hpartners Hreceiver Hparcels.
  rewrite (bool_decide_eq_true_2 _ Hsid). cbv beta iota.
  run_cases addons agent pdf_config; try congruence. reflexivity.
Qed.

(** When every schema check passes, a shipment is returned. *)
Lemma create_shipment_returns custno service_id receiver sender parcels
    agent order_no sender_reference pdf_config addons :
  service_id ∈ dom SERVICES →
  validate (schema_of objects Sender) sender = true →
  validate (schema_of objects SenderPartners) (partners_data custno) = true →
  validate (schema_of objects (_infer_receiver_class service_id agent))
           receiver = true →
  validate (schema_of objects (_infer_parcels_class service_id))
           parcels = true →
  validate (schema_of objects Service)
           (VDict {[ "id" := VStr service_id ]}) = true →
  (truthy agent = true → validate (schema_of objects Agent) agent = true) →
  (truthy pdf_config = true →
   validate (schema_of objects PDFConfig) pdf_config = true) →
  ∃ sh evs,
    run (create_shipment objects custno service_id receiver sender parcels
           agent order_no sender_reference pdf_config addons) = (Ok sh, evs).
Proof.
  unfold run, create_shipment, _validate_create_shipment, _build_service,
    partners_data.
  generalize (_infer_receiver_class service_id agent) as rc.
  generalize (_infer_parcels_class service_id) as pc. intros pc rc.
  unfold mbind, M_bind, mret, M_ret, raise, lift, setitem.
  intros Hsid Hsender Hpartners Hreceiver Hparcels Hservice Hagent Hpdf.
  rewrite (bool_decide_eq_true_2 _ Hsid). cbv beta iota.
  run_cases addons agent pdf_config; try congruence;
    try (pose proof (Hagent ltac:(assumption)); congruence);
    try (pose proof (Hpdf ltac:(assumption)); congruence);
    by eexists _, _.
Qed.

Lemma infer_receiver_class_cases service_id agent :
  _infer_receiver_class service_id agent = MobileReceiver
  ∨ _infer_receiver_class service_id agent = Receiver.
Proof.
  unfold _infer_receiver_class.
  destruct (bool_decide _); [by left|].
  destruct (_ && _); [by left|by right].
Qed.

Lemma infer_parcels_class_cases service_id :
  _infer_parcels_class service_id = WeightedParcels
  ∨ _infer_parcels_class service_id = Parcels.
Proof.
  unfold _infer_parcels_class. destruct (bool_decide _); [by left|by right].
Qed.

Lemma infer_receiver_class_Mobile service_id agent :
  _infer_receiver_class service_id agent = MobileReceiver
  ↔ service_id = "PO2104" ∨ (service_id = "PO2103" ∧ truthy agent = true).
Proof.
  unfold _infer_receiver_class.
  case_bool_decide as H1; [by intuition|].
  case_bool_decide as H2; simpl; destruct (truthy agent);
    intuition congruence.
Qed.

(** C1: for a registered service code the mobile-capable receiver class is
    chosen exactly when the code is "PO2104", or is "PO2103" with a truthy
    agent, and the base Receiver class otherwise; the receiver constructor is
    called with the chosen class and with no other, and the receiver field
    of a returned shipment is an instance of it. *)
Theorem receiver_variant_selected custno service_id receiver sender parcels
    agent order_no sender_reference pdf_config addons :
  service_id ∈ dom SERVICES →
  (_infer_receiver_class service_id agent = MobileReceiver
   ↔ service_id = "PO2104" ∨ (service_id = "PO2103" ∧ truthy agent = true))
  ∧ (_infer_receiver_class service_id agent = Receiver
     ↔ ¬ (service_id = "PO2104"
          ∨ (service_id = "PO2103" ∧ truthy agent = true)))
  ∧ (∀ c d,
       Construct c d
         ∈ (run (create_shipment objects custno service_id receiver sender
                   parcels agent order_no sender_reference pdf_config
                   addons)).2 →
       c = Receiver ∨ c = MobileReceiver →
       c = _infer_receiver_class service_id agent ∧ d = receiver)
  ∧ (validate (schema_of objects Sender) sender = true →
     validate (schema_of objects SenderPartners) (partners_data custno)
       = true →
     Construct (_infer_receiver_class service_id agent) receiver
       ∈ (run (create_shipment objects custno service_id receiver sender
                 parcels agent order_no sender_reference pdf_config
                 addons)).2)
  ∧ (∀ sh evs,
       run (create_shipment objects custno service_id receiver sender
              parcels agent order_no sender_reference pdf_config addons)
         = (Ok sh, evs) →
       shipment_fields sh !! "receiver" =
         Some (FObj (Object (_infer_receiver_class service_id agent)
                            receiver))).
Proof.
  intros Hsid. split; [apply infer_receiver_class_Mobile|].
  split; [|split; [|split]].
  - rewrite <- infer_receiver_class_Mobile.
    destruct (infer_receiver_class_cases service_id agent) as [H|H];
      rewrite H; intuition congruence.
  - intros c d Hin Hc.
    pose proof (create_shipment_trace custno service_id receiver sender
                  parcels agent order_no sender_reference pdf_config addons)
      as Htrace.
    apply (elem_of_sublist _ _ _ Hin) in Htrace. clear Hin.
    rename Htrace into Hin.
    destruct (infer_parcels_class_cases service_id) as [Hp|Hp];
      rewrite Hp in Hin;
      repeat (apply elem_of_cons in Hin as [Heq|Hin];
              [injection Heq as -> ->;
               first [destruct Hc; discriminate | split; reflexivity]|]);
      by apply elem_of_nil in Hin.
  - intros. by apply create_shipment_reaches_receiver.
  - intros sh evs Hrun.
    apply create_shipment_Ok_inv in Hrun as (_ & _ & _ & ->).
    lookup_fields. reflexivity.
Qed.

(** C2: a service code that is not a key of SERVICES makes [create_shipment]
    raise ValueError at once: no constructor has been called, the trace is
    the one the call started with. *)
Theorem unknown_service_code_rejected custno service_id receiver sender
    parcels agent order_no sender_reference pdf_config addons tr :
  service_id ∉ dom SERVICES →
  create_shipment objects custno service_id receiver sender parcels
    agent order_no sender_reference pdf_config addons tr
  = (Raise (ValueError "Invalid 'service_id'."), tr).
Proof.
  intros Hsid.
  unfold create_shipment, _validate_create_shipment, mbind, M_bind, raise.
  by rewrite (bool_decide_eq_false_2 _ Hsid).
Qed.

Lemma has_keys_app r1 r2 v :
  has_keys (r1 ++ r2) v = has_keys r1 v && has_keys r2 v.
Proof. destruct v; simpl; try done. apply forallb_app. Qed.

Lemma validate_required_append (it : schema) k v :
  validate (MkSchema (required it ++ [k]) (oneOf it) (items it) (other it)) v
  = validate it v && has_keys [k] v.
Proof.
  destruct it as [req alts its oth]. cbn [validate required oneOf items other].
  rewrite has_keys_app.
  destruct (oth v); [|done]. destruct (has_keys req v); [|done].
  destruct (has_keys [k] v); cbn [andb].
  - by rewrite andb_true_r.
  - by rewrite andb_false_r.
Qed.

Lemma forallb_validate_required_append (it : schema) k es :
  forallb (validate (MkSchema (required it ++ [k]) (oneOf it) (items it)
                              (other it))) es
  = forallb (validate it) es && forallb (has_keys [k]) es.
Proof.
  induction es as [|e es IH]; [done|]. cbn [forallb].
  rewrite validate_required_append, IH.
  destruct (validate it e), (has_keys [k] e), (forallb (validate it) es);
    done.
Qed.

Lemma validate_list req alts (it : schema) oth es :
  validate (MkSchema req alts (Some it) oth) (VList es)
  = oth (VList es) && has_keys req (VList es)
    && match alts with
       | [] => true
       | _ => existsb (λ a, validate a (VList es)) alts
       end
    && forallb (validate it) es.
Proof. reflexivity. Qed.

(** The weighted variant accepts a parcel list exactly when the base variant
    does and every entry carries a weight. *)
Lemma validate_WeightedParcels es :
  validate (schema_of objects WeightedParcels) (VList es)
  = validate (schema_of objects Parcels) (VList es)
    && forallb (has_keys ["weight"]) es.
Proof.
  cbn [schema_of]. unfold WeightedParcels_schema, Parcels_schema.
  cbn [required oneOf items other fmap option_fmap option_map].
  rewrite !validate_list, forallb_validate_required_append.
  by rewrite !andb_assoc.
Qed.

Lemma infer_parcels_class_Weighted service_id :
  _infer_parcels_class service_id = WeightedParcels ↔ service_id = "PO5041".
Proof.
  unfold _infer_parcels_class. case_bool_decide; intuition congruence.
Qed.

(** C3: for a registered service code the weighted parcels class is chosen
    exactly when the code is "PO5041" and the base Parcels class otherwise;
    the parcels constructor is called with the chosen class only, and the
    weighted class accepts what the base class accepts provided every parcel
    entry carries a weight, so a shipment returned for "PO5041" has a weight
    on each entry. *)
Theorem parcels_variant_selected custno service_id receiver sender parcels
    agent order_no sender_reference pdf_config addons :
  service_id ∈ dom SERVICES →
  (_infer_parcels_class service_id = WeightedParcels
   ↔ service_id = "PO5041")
  ∧ (_infer_parcels_class service_id = Parcels ↔ service_id ≠ "PO5041")
  ∧ (∀ c d,
       Construct c d
         ∈ (run (create_shipment objects custno service_id receiver sender
                   parcels agent order_no sender_reference pdf_config
                   addons)).2 →
       c = Parcels ∨ c = WeightedParcels →
       c = _infer_parcels_class service_id ∧ d = parcels)
  ∧ (validate (schema_of objects Sender) sender = true →
     validate (schema_of objects SenderPartners) (partners_data custno)
       = true →
     validate (schema_of objects (_infer_receiver_class service_id agent))
              receiver = true →
     Construct (_infer_parcels_class service_id) parcels
       ∈ (run (create_shipment objects custno service_id receiver sender
                 parcels agent order_no sender_reference pdf_config
                 addons)).2)
  ∧ (∀ sh evs,
       run (create_shipment objects custno service_id receiver sender
              parcels agent order_no sender_reference pdf_config addons)
         = (Ok sh, evs) →
       shipment_fields sh !! "parcels" =
         Some (FObj (Object (_infer_parcels_class service_id) parcels)))
  ∧ (∀ es,
       validate (schema_of objects WeightedParcels) (VList es)
       = validate (schema_of objects Parcels) (VList es)
         && forallb (has_keys ["weight"]) es)
  ∧ (∀ sh evs es,
       service_id = "PO5041" → parcels = VList es →
       run (create_shipment objects custno service_id receiver sender
              parcels agent order_no sender_reference pdf_config addons)
         = (Ok sh, evs) →
       ∀ e d, e ∈ es → e = VDict d → is_Some (d !! "weight"))
  ∧ (∀ es,
       service_id = "PO5041" → parcels = VList es →
       forallb (has_keys ["weight"]) es = false →
       validate (schema_of objects Sender) sender = true →
       validate (schema_of objects SenderPartners) (partners_data custno)
         = true →
       validate (schema_of objects (_infer_receiver_class service_id agent))
                receiver = true →
       (run (create_shipment objects custno service_id receiver sender
               parcels agent order_no sender_reference pdf_config
               addons)).1
       = Raise (ValidationError WeightedParcels)).
Proof.
  intros Hsid. split; [apply infer_parcels_class_Weighted|].
  split; [|split; [|split; [|split; [|split; [|split]]]]].
  - rewrite <- infer_parcels_class_Weighted.
    destruct (infer_parcels_class_cases service_id) as [H|H];
      rewrite H; intuition congruence.
  - intros c d Hin Hc.
    pose proof (create_shipment_trace custno service_id receiver sender
                  parcels agent order_no sender_reference pdf_config addons)
      as Htrace.
    apply (elem_of_sublist _ _ _ Hin) in Htrace. clear Hin.
    rename Htrace into Hin.
    destruct (infer_receiver_class_cases service_id agent) as [Hr|Hr];
      rewrite Hr in Hin;
      repeat (apply elem_of_cons in Hin as [Heq|Hin];
              [injection Heq as -> ->;
               first [destruct Hc; discriminate | split; reflexivity]|]);
      by apply elem_of_nil in Hin.
  - intros. by apply create_shipment_reaches_parcels.
  - intros sh evs Hrun.
    apply create_shipment_Ok_inv in Hrun as (_ & _ & _ & ->).
    lookup_fields. reflexivity.
  - apply validate_WeightedParcels.
  - intros sh evs es -> -> Hrun e d He ->.
    apply create_shipment_Ok_inv in Hrun as (_ & _ & Hvalid & _).
    change (_infer_parcels_class "PO5041") with WeightedParcels in Hvalid.
    rewrite validate_WeightedParcels in Hvalid.
    apply andb_prop in Hvalid as [_ Hweight].
    rewrite forallb_forall in Hweight.
    apply list_elem_of_In, Hweight in He. cbn [has_keys forallb] in He.
    apply andb_prop in He as [He _]. by apply bool_decide_eq_true in He.
  - intros es -> -> Hweight Hsender Hpartners Hreceiver.
    rewrite create_shipment_parcels_refused; try done.
    change (_infer_parcels_class "PO5041") with WeightedParcels.
    rewrite validate_WeightedParcels, Hweight. apply andb_false_r.
Qed.

(** C5: in a returned shipment an optional argument that was omitted has no
    field at all: agent, orderNo, senderReference and pdfConfig are absent
    keys, not keys bound to None; and the service value has an addons entry
    only for truthy addons, so for a list only when it is non-empty. *)
Theorem omitted_optionals_absent custno service_id receiver sender parcels
    agent order_no sender_reference pdf_config addons sh evs :
  run (create_shipment objects custno service_id receiver sender parcels
         agent order_no sender_reference pdf_config addons) = (Ok sh, evs) →
  (agent = VNone → shipment_fields sh !! "agent" = None)
  ∧ (order_no = VNone → shipment_fields sh !! "orderNo" = None)
  ∧ (sender_reference = VNone →
     shipment_fields sh !! "senderReference" = None)
  ∧ (pdf_config = VNone → shipment_fields sh !! "pdfConfig" = None)
  ∧ ∃ d,
      shipment_fields sh !! "service" = Some (FObj (Object Service (VDict d)))
      ∧ d !! "id" = Some (VStr service_id)
      ∧ (addons = VNone → d !! "addons" = None)
      ∧ (is_Some (d !! "addons") →
         truthy addons = true ∧ d !! "addons" = Some addons)
      ∧ (∀ l, addons = VList l → (is_Some (d !! "addons") ↔ l ≠ [])).
Proof.
  intros Hrun.
  apply create_shipment_Ok_inv in Hrun as (_ & _ & _ & ->).
  repeat split.
  - intros ->. lookup_fields. reflexivity.
  - intros ->. lookup_fields. reflexivity.
  - intros ->. lookup_fields. reflexivity.
  - intros ->. lookup_fields. reflexivity.
  - eexists. split; [lookup_fields; reflexivity|].
    destruct (truthy addons) eqn:Haddons.
    + split; [reflexivity|]. split; [by intros ->|].
      split; [by intros _|].
      intros l ->. destruct l; [done|].
      split; [done|]. intros _. by eexists.
    + split; [reflexivity|]. split; [done|].
      split; [by intros [? [=]]|].
      intros l ->. destruct l; [|done].
      split; [by intros [? [=]]|done].
Qed.

Lemma omitted_if_falsy_truthy v :
  truthy v = true → omitted_if_falsy v = v.
Proof. unfold omitted_if_falsy. by intros ->. Qed.

Lemma omitted_if_falsy_falsy v :
  truthy v = false → omitted_if_falsy v = VNone.
Proof. unfold omitted_if_falsy. by intros ->. Qed.

(** A falsy agent is to [create_shipment] what no agent is. *)
Lemma create_shipment_falsy_agent custno service_id receiver sender parcels
    agent order_no sender_reference pdf_config addons tr :
  truthy agent = false →
  create_shipment objects custno service_id receiver sender parcels
    agent order_no sender_reference pdf_config addons tr
  = create_shipment objects custno service_id receiver sender parcels
      VNone order_no sender_reference pdf_config addons tr.
Proof.
  intros H. unfold create_shipment, _infer_receiver_class.
  rewrite H. reflexivity.
Qed.

Lemma create_shipment_falsy_order_no custno service_id receiver sender
    parcels agent order_no sender_reference pdf_config addons tr :
  truthy order_no = false →
  create_shipment objects custno service_id receiver sender parcels
    agent order_no sender_reference pdf_config addons tr
  = create_shipment objects custno service_id receiver sender parcels
      agent VNone sender_reference pdf_config addons tr.
Proof. intros H. unfold create_shipment. rewrite H. reflexivity. Qed.

Lemma create_shipment_falsy_sender_reference custno service_id receiver
    sender parcels agent order_no sender_reference pdf_config addons tr :
  truthy sender_reference = false →
  create_shipment objects custno service_id receiver sender parcels
    agent order_no sender_reference pdf_config addons tr
  = create_shipment objects custno service_id receiver sender parcels
      agent order_no VNone pdf_config addons tr.
Proof. intros H. unfold create_shipment. rewrite H. reflexivity. Qed.

Lemma create_shipment_falsy_pdf_config custno service_id receiver sender
    parcels agent order_no sender_reference pdf_config addons tr :
  truthy pdf_config = false →
  create_shipment objects custno service_id receiver sender parcels
    agent order_no sender_reference pdf_config addons tr
  = create_shipment objects custno service_id receiver sender parcels
      agent order_no sender_reference VNone addons tr.
Proof. intros H. unfold create_shipment. rewrite H. reflexivity. Qed.

Lemma create_shipment_falsy_addons custno service_id receiver sender
    parcels agent order_no sender_reference pdf_config addons tr :
  truthy addons = false →
  create_shipment objects custno service_id receiver sender parcels
    agent order_no sender_reference pdf_config addons tr
  = create_shipment objects custno service_id receiver sender parcels
      agent order_no sender_reference pdf_config VNone tr.
Proof.
  intros H. unfold create_shipment, _build_service. rewrite H. reflexivity.
Qed.

(** C10: the optional arguments count by truthiness: a call behaves exactly
    as the call in which every falsy optional argument is replaced by None,
    the empty dictionary, string and list being such values; with "PO2103"
    and agent={} the base Receiver class is chosen and a returned shipment
    has no agent field. *)
Theorem falsy_optionals_as_omitted custno service_id receiver sender parcels
    agent order_no sender_reference pdf_config addons tr :
  create_shipment objects custno service_id receiver sender parcels
    agent order_no sender_reference pdf_config addons tr
  = create_shipment objects custno service_id receiver sender parcels
      (omitted_if_falsy agent) (omitted_if_falsy order_no)
      (omitted_if_falsy sender_reference) (omitted_if_falsy pdf_config)
      (omitted_if_falsy addons) tr
  ∧ omitted_if_falsy (VDict ∅) = VNone
  ∧ omitted_if_falsy (VStr "") = VNone
  ∧ omitted_if_falsy (VList []) = VNone
  ∧ _infer_receiver_class "PO2103" (VDict ∅) = Receiver
  ∧ (∀ sh evs,
       run (create_shipment objects custno "PO2103" receiver sender parcels
              (VDict ∅) order_no sender_reference pdf_config addons)
         = (Ok sh, evs) →
       shipment_fields sh !! "agent" = None
       ∧ shipment_fields sh !! "receiver" =
           Some (FObj (Object Receiver receiver))).
Proof.
  split; [|repeat split; try reflexivity].
  - destruct (truthy agent) eqn:Ha;
      [rewrite (omitted_if_falsy_truthy agent Ha)
      |rewrite (omitted_if_falsy_falsy agent Ha),
         (create_shipment_falsy_agent _ _ _ _ _ agent) by done];
    (destruct (truthy order_no) eqn:Ho;
      [rewrite (omitted_if_falsy_truthy order_no Ho)
      |rewrite (omitted_if_falsy_falsy order_no Ho),
         (create_shipment_falsy_order_no _ _ _ _ _ _ order_no) by done]);
    (destruct (truthy sender_reference) eqn:Hs;
      [rewrite (omitted_if_falsy_truthy sender_reference Hs)
      |rewrite (omitted_if_falsy_falsy sender_reference Hs),
         (create_shipment_falsy_sender_reference _ _ _ _ _ _ _
            sender_reference) by done]);
    (destruct (truthy pdf_config) eqn:Hp;
      [rewrite (omitted_if_falsy_truthy pdf_config Hp)
      |rewrite (omitted_if_falsy_falsy pdf_config Hp),
         (create_shipment_falsy_pdf_config _ _ _ _ _ _ _ _ pdf_config)
         by done]);
    (destruct (truthy addons) eqn:Hd;
      [rewrite (omitted_if_falsy_truthy addons Hd)
      |rewrite (omitted_if_falsy_falsy addons Hd),
         (create_shipment_falsy_addons _ _ _ _ _ _ _ _ _ addons) by done]);
    reflexivity.
  - apply create_shipment_Ok_inv in H as (_ & _ & _ & ->).
    lookup_fields. reflexivity.
  - apply create_shipment_Ok_inv in H as (_ & _ & _ & ->).
    lookup_fields. reflexivity.
Qed.

(** The checks a run has passed or failed, rewritten where they are read
    again. *)
Ltac use_checks :=
  repeat match goal with
         | H : validate ?s ?d = _ |- context [validate ?s ?d] => rewrite H
         end.

(** X6: for a registered service code the constructors are called in the
    order Sender, SenderPartners, receiver, parcels, Service, then Agent and
    PDFConfig when their argument is truthy, each once, up to and including
    the first one that refuses its data; the call raises the
    ValidationError of that class, or returns a shipment when none
    refuses. *)
Theorem create_shipment_first_refusal custno service_id receiver sender
    parcels agent order_no sender_reference pdf_config addons :
  service_id ∈ dom SERVICES →
  (run (create_shipment objects custno service_id receiver sender parcels
          agent order_no sender_reference pdf_config addons)).2
  = (λ call, Construct call.1 call.2)
      <$> (checked objects
             (shipment_checks custno service_id receiver sender parcels
                agent pdf_config)).1
  ∧ match (checked objects
             (shipment_checks custno service_id receiver sender parcels
                agent pdf_config)).2 with
    | Some c =>
        (run (create_shipment objects custno service_id receiver sender
                parcels agent order_no sender_reference pdf_config
                addons)).1
        = Raise (ValidationError c)
    | None =>
        ∃ sh,
          (run (create_shipment objects custno service_id receiver sender
                  parcels agent order_no sender_reference pdf_config
                  addons)).1
          = Ok sh
    end.
Proof.
  unfold run, create_shipment, _validate_create_shipment, _build_service,
    shipment_checks, partners_data.
  generalize (_infer_receiver_class service_id agent) as rc.
  generalize (_infer_parcels_class service_id) as pc. intros pc rc.
  unfold mbind, M_bind, mret, M_ret, raise, lift, setitem.
  intros Hsid. rewrite (bool_decide_eq_true_2 _ Hsid). cbv beta iota.
  run_cases addons agent pdf_config;
    repeat (cbn [checked app fst snd]; use_checks);
    cbn [fst snd fmap list_fmap];
    (split; [reflexivity|first [reflexivity | by eexists]]).
Qed.

(** A shipment is returned only when every check was passed. *)
Lemma create_shipment_Ok_checks custno service_id receiver sender parcels
    agent order_no sender_reference pdf_config addons sh evs :
  run (create_shipment objects custno service_id receiver sender parcels
         agent order_no sender_reference pdf_config addons) = (Ok sh, evs) →
  validate (schema_of objects Sender) sender = true
  ∧ validate (schema_of objects SenderPartners) (partners_data custno) = true
  ∧ validate (schema_of objects Service)
             (VDict {[ "id" := VStr service_id ]}) = true
  ∧ (truthy agent = true → validate (schema_of objects Agent) agent = true)
  ∧ (truthy pdf_config = true →
     validate (schema_of objects PDFConfig) pdf_config = true).
Proof.
  unfold run, create_shipment, _validate_create_shipment, _build_service,
    partners_data.
  generalize (_infer_receiver_class service_id agent) as rc.
  generalize (_infer_parcels_class service_id) as pc. intros pc rc.
  unfold mbind, M_bind, mret, M_ret, raise, lift, setitem.
  destruct (bool_decide (service_id ∈ dom SERVICES));
    [|intros; discriminate].
  run_cases addons agent pdf_config; intros [=];
    repeat split; (assumption || intros; (assumption || discriminate)).
Qed.

(** X1: [create_shipment] returns a shipment exactly when the service code
    is registered and every value it wraps passes the schema of its class;
    the agent and the PDF config are checked only when truthy, and the
    order number, the sender reference and the addons never are. *)
Theorem create_shipment_returns_iff custno service_id receiver sender
    parcels agent order_no sender_reference pdf_config addons :
  (∃ sh evs,
     run (create_shipment objects custno service_id receiver sender parcels
            agent order_no sender_reference pdf_config addons)
     = (Ok sh, evs))
  ↔ service_id ∈ dom SERVICES
    ∧ validate (schema_of objects Sender) sender = true
    ∧ validate (schema_of objects SenderPartners) (partners_data custno)
      = true
    ∧ validate (schema_of objects (_infer_receiver_class service_id agent))
               receiver = true
    ∧ validate (schema_of objects (_infer_parcels_class service_id))
               parcels = true
    ∧ validate (schema_of objects Service)
               (VDict {[ "id" := VStr service_id ]}) = true
    ∧ (truthy agent = true →
       validate (schema_of objects Agent) agent = true)
    ∧ (truthy pdf_config = true →
       validate (schema_of objects PDFConfig) pdf_config = true).
Proof.
  split.
  - intros (sh & evs & Hrun).
    pose proof Hrun as Hchecks.
    apply create_shipment_Ok_inv in Hrun
      as (Hsid & Hreceiver & Hparcels & _).
    apply create_shipment_Ok_checks in Hchecks
      as (Hsender & Hpartners & Hservice & Hagent & Hpdf).
    repeat split; assumption.
  - intros (? & ? & ? & ? & ? & ? & ? & ?).
    by apply create_shipment_returns.
Qed.

(** X2: a returned shipment holds the sender wrapped as a Sender, a
    senderPartners list with the single entry of id "POSTI" and the
    customer number, and a service whose id is the service code, with the
    addons, when truthy, stored as they were given. *)
Theorem returned_shipment_required_fields custno service_id receiver sender
    parcels agent order_no sender_reference pdf_config addons sh evs :
  run (create_shipment objects custno service_id receiver sender parcels
         agent order_no sender_reference pdf_config addons) = (Ok sh, evs) →
  shipment_fields sh !! "sender" = Some (FObj (Object Sender sender))
  ∧ shipment_fields sh !! "senderPartners" =
      Some (FObj (Object SenderPartners
                    (VList [VDict (list_to_map [("id", VStr "POSTI");
                                                ("custNo", custno)])])))
  ∧ shipment_fields sh !! "service" =
      Some (FObj (Object Service
                    (VDict (if truthy addons
                            then list_to_map [("id", VStr service_id);
                                              ("addons", addons)]
                            else {[ "id" := VStr service_id ]})))).
Proof.
  intros Hrun.
  apply create_shipment_Ok_inv in Hrun as (_ & _ & _ & ->).
  repeat split; lookup_fields.
  - reflexivity.
  - reflexivity.
  - unfold service_data. by destruct (truthy addons).
Qed.

(** X3: a truthy optional argument is in the returned shipment under its
    key: the agent wrapped as an Agent, the PDF config as a PDFConfig, the
    order number and the sender reference as they were given. *)
Theorem supplied_optionals_present custno service_id receiver sender
    parcels agent order_no sender_reference pdf_config addons sh evs :
  run (create_shipment objects custno service_id receiver sender parcels
         agent order_no sender_reference pdf_config addons) = (Ok sh, evs) →
  (truthy agent = true →
   shipment_fields sh !! "agent" = Some (FObj (Object Agent agent)))
  ∧ (truthy order_no = true →
     shipment_fields sh !! "orderNo" = Some (FRaw order_no))
  ∧ (truthy sender_reference = true →
     shipment_fields sh !! "senderReference" = Some (FRaw sender_reference))
  ∧ (truthy pdf_config = true →
     shipment_fields sh !! "pdfConfig" =
       Some (FObj (Object PDFConfig pdf_config))).
Proof.
  intros Hrun.
  apply create_shipment_Ok_inv in Hrun as (_ & _ & _ & ->).
  repeat split; intros Htruthy; lookup_fields; by rewrite Htruthy.
Qed.

Lemma dom_insert_if (b : bool) k (x : field) (m : gmap string field) :
  dom ((if b then <[k:=x]> else id) m)
  = (if b then {[ k ]} else ∅) ∪ dom m.
Proof.
  destruct b; [apply dom_insert_L|]. by rewrite (left_id_L ∅ (∪)).
Qed.

(** X4: the keys of a returned shipment are sender, senderPartners,
    receiver, parcels and service, plus agent, orderNo, senderReference and
    pdfConfig for the truthy ones among these arguments, and no other. *)
Theorem returned_shipment_keys custno service_id receiver sender parcels
    agent order_no sender_reference pdf_config addons sh evs :
  run (create_shipment objects custno service_id receiver sender parcels
         agent order_no sender_reference pdf_config addons) = (Ok sh, evs) →
  dom (shipment_fields sh)
  = (if truthy pdf_config then {[ "pdfConfig" ]} else ∅)
    ∪ (if truthy sender_reference then {[ "senderReference" ]} else ∅)
    ∪ (if truthy order_no then {[ "orderNo" ]} else ∅)
    ∪ (if truthy agent then {[ "agent" ]} else ∅)
    ∪ list_to_set ["sender"; "senderPartners"; "receiver"; "parcels";
                   "service"].
Proof.
  intros Hrun.
  apply create_shipment_Ok_inv in Hrun as (_ & _ & _ & ->).
  rewrite !dom_insert_if, dom_list_to_map_L.
  by rewrite !(assoc_L (∪)).
Qed.

(** X5: [create_shipment] issues no request, and it either returns a
    shipment, or raises ValueError for an unregistered service code, or
    raises the ValidationError of a class whose check one of its wrapped
    values failed; it raises nothing else. *)
Theorem create_shipment_outcomes custno service_id receiver sender parcels
    agent order_no sender_reference pdf_config addons :
  requests_of
    (run (create_shipment objects custno service_id receiver sender parcels
            agent order_no sender_reference pdf_config addons)).2 = []
  ∧ ((∃ sh,
        (run (create_shipment objects custno service_id receiver sender
                parcels agent order_no sender_reference pdf_config
                addons)).1 = Ok sh)
     ∨ ((service_id ∉ dom SERVICES)
        ∧ (run (create_shipment objects custno service_id receiver sender
                  parcels agent order_no sender_reference pdf_config
                  addons)).1 = Raise (ValueError "Invalid 'service_id'."))
     ∨ (∃ c data,
          (run (create_shipment objects custno service_id receiver sender
                  parcels agent order_no sender_reference pdf_config
                  addons)).1 = Raise (ValidationError c)
          ∧ validate (schema_of objects c) data = false
          ∧ (c, data) ∈ shipment_checks custno service_id receiver sender
                          parcels agent pdf_config)).
Proof.
  unfold run, create_shipment, _validate_create_shipment, _build_service,
    shipment_checks, partners_data.
  generalize (_infer_receiver_class service_id agent) as rc.
  generalize (_infer_parcels_class service_id) as pc. intros pc rc.
  unfold mbind, M_bind, mret, M_ret, raise, lift, setitem.
  destruct (bool_decide (service_id ∈ dom SERVICES)) eqn:Hsid.
  - run_cases addons agent pdf_config;
      (split; [reflexivity|]);
      first [ by left; eexists
            | right; right; eexists _, _;
              split; [reflexivity|]; split; [eassumption|];
              cbn [app];
              repeat first [apply list_elem_of_here
                           | apply list_elem_of_further] ].
  - apply bool_decide_eq_false in Hsid.
    split; [reflexivity|]. right. left. by split.
Qed.

(** X7: a variant class is selected only for a registered, national
    service code, and no service code selects both the mobile-capable
    receiver and the weighted parcels. *)
Theorem variants_only_for_national_services service_id agent :
  _infer_receiver_class service_id agent = MobileReceiver
  ∨ _infer_parcels_class service_id = WeightedParcels →
  service_id ∈ NATIONAL_SERVICE_KEYS
  ∧ service_id ∈ dom SERVICES
  ∧ service_id ∈ dom NATIONAL_SERVICES
  ∧ (_infer_receiver_class service_id agent = Receiver
     ∨ _infer_parcels_class service_id = Parcels).
Proof.
  rewrite infer_receiver_class_Mobile, infer_parcels_class_Weighted.
  intros [[->|[-> _]]| ->];
    (split; [unfold NATIONAL_SERVICE_KEYS;
             repeat first [apply list_elem_of_here
                          | apply list_elem_of_further]|]);
    (split; [apply elem_of_dom; eexists; reflexivity|]);
    (split; [apply elem_of_dom; eexists; reflexivity|]).
  - by right.
  - by right.
  - by left.
Qed.

(** A receiver that fails the check of its class ends the call there. *)
Lemma create_shipment_receiver_refused custno service_id receiver sender
    parcels agent order_no sender_reference pdf_config addons :
  service_id ∈ dom SERVICES →
  validate (schema_of objects Sender) sender = true →
  validate (schema_of objects SenderPartners) (partners_data custno) = true →
  validate (schema_of objects (_infer_receiver_class service_id agent))
           receiver = false →
  run (create_shipment objects custno service_id receiver sender parcels
         agent order_no sender_reference pdf_config addons)
  = (Raise (ValidationError (_infer_receiver_class service_id agent)),
     [Construct Sender sender;
      Construct SenderPartners (partners_data custno);
      Construct (_infer_receiver_class service_id agent) receiver]).
Proof.
  unfold run, create_shipment, _validate_create_shipment, _build_service,
    partners_data.
  generalize (_infer_receiver_class service_id agent) as rc.
  generalize (_infer_parcels_class service_id) as pc. intros pc rc.
  unfold mbind, M_bind, mret, M_ret, raise, lift, setitem.
  intros Hsid Hsender Hpartners Hreceiver.
  rewrite (bool_decide_eq_true_2 _ Hsid). cbv beta iota.
  run_cases addons agent pdf_config; try congruence. reflexivity.
Qed.

(** The mobile-capable class accepts a value through its own field set or
    through one of the field sets it shares with the base class. *)
Lemma validate_MobileReceiver v :
  validate (schema_of objects MobileReceiver) v = true →
  has_keys ["name"; "city"; "country"; "mobile"] v = true
  ∨ existsb (λ alt, validate alt v) (Receiver_oneOf_rest objects) = true.
Proof.
  cbn [schema_of]. unfold MobileReceiver_schema, Receiver_schema.
  cbn [required oneOf items other insert list_insert validate existsb
       required_only].
  intros H. apply andb_prop in H as [H _]. apply andb_prop in H as [_ H].
  apply orb_prop in H as [H|H]; [left|by right].
  apply andb_prop in H as [H _]. apply andb_prop in H as [H _].
  by apply andb_prop in H as [_ H].
Qed.

(** X8: for "PO2104", and for "PO2103" with a truthy agent, a receiver
    dictionary without a "mobile" key that matches none of the other
    accepted field sets is refused: no shipment is returned, and once the
    sender data have passed the call raises ValidationError of
    MobileReceiver at the receiver. *)
Theorem mobile_receiver_needs_mobile custno service_id receiver sender
    parcels agent order_no sender_reference pdf_config addons d :
  service_id = "PO2104" ∨ (service_id = "PO2103" ∧ truthy agent = true) →
  receiver = VDict d →
  d !! "mobile" = None →
  existsb (λ alt, validate alt receiver) (Receiver_oneOf_rest objects)
    = false →
  (∀ sh evs,
     run (create_shipment objects custno service_id receiver sender parcels
            agent order_no sender_reference pdf_config addons)
     ≠ (Ok sh, evs))
  ∧ (validate (schema_of objects Sender) sender = true →
     validate (schema_of objects SenderPartners) (partners_data custno)
       = true →
     run (create_shipment objects custno service_id receiver sender parcels
            agent order_no sender_reference pdf_config addons)
     = (Raise (ValidationError MobileReceiver),
        [Construct Sender sender;
         Construct SenderPartners (partners_data custno);
         Construct MobileReceiver receiver])).
Proof.
  intros Hcode -> Hmobile Hrest.
  apply infer_receiver_class_Mobile in Hcode.
  assert (validate (schema_of objects MobileReceiver) (VDict d) = false)
    as Hrefused.
  { apply not_true_is_false. intros [Hkeys|Hother]%validate_MobileReceiver.
    - cbn [has_keys forallb] in Hkeys.
      rewrite (bool_decide_eq_false_2 (is_Some (d !! "mobile"))) in Hkeys.
      + by rewrite !andb_false_r in Hkeys.
      + rewrite Hmobile. by intros [? [=]].
    - congruence. }
  split.
  - intros sh evs Hrun.
    apply create_shipment_Ok_inv in Hrun as (_ & Hvalid & _).
    rewrite Hcode in Hvalid. congruence.
  - intros Hsender Hpartners. rewrite <- Hcode.
    apply create_shipment_receiver_refused; try done.
    + assert (service_id ∈ NATIONAL_SERVICE_KEYS ∧ service_id ∈ dom SERVICES)
        as [_ Hsid]; [|done].
      apply infer_receiver_class_Mobile in Hcode.
      destruct Hcode as [->|[-> _]];
        (split; [unfold NATIONAL_SERVICE_KEYS;
                 repeat first [apply list_elem_of_here
                              | apply list_elem_of_further]
                |apply elem_of_dom; eexists; reflexivity]).
    + by rewrite Hcode.
Qed.

(** X18: whatever the weighted parcels class accepts, the base Parcels class
    accepts too: the subclass adds the weight requirement to the entries and
    takes nothing away. *)
Theorem WeightedParcels_stricter (v : value) :
  validate (schema_of objects WeightedParcels) v = true →
  validate (schema_of objects Parcels) v = true.
Proof.
  destruct v as [| | | | |es|]; try (intros H; exact H).
  rewrite validate_WeightedParcels. by intros [H _]%andb_prop.
Qed.

End ShipmentBuilder.

(** * The properties on the sample collaborators *)

Lemma PO2103_registered : "PO2103" ∈ dom SERVICES.
Proof. by apply elem_of_dom_2 with "Posti - Postipaketti". Defined.

Lemma PO2102_registered : "PO2102" ∈ dom SERVICES.
Proof. by apply elem_of_dom_2 with "Posti - Express-paketti". Defined.

Lemma PO5041_registered : "PO5041" ∈ dom SERVICES.
Proof. by apply elem_of_dom_2 with "Posti - Näytelähetys". Defined.

(** The registry has 15 entries, 8 of them national. *)
Lemma SERVICES_size : size SERVICES = 15 ∧ size NATIONAL_SERVICES = 8.
Proof. split; reflexivity. Qed.

(** "PO2103" with an agent: the mobile-capable receiver class is the one
    called. *)
Lemma receiver_variant_selected_witness :
  "PO2103" ∈ dom SERVICES
  ∧ Construct MobileReceiver sample_mobile_receiver
      ∈ (run (create_shipment sample_objects (VStr "12345") "PO2103"
                sample_mobile_receiver sample_sender sample_parcels
                sample_agent VNone VNone VNone VNone)).2.
Proof.
  split; [exact PO2103_registered|].
  destruct (receiver_variant_selected sample_objects (VStr "12345") "PO2103"
              sample_mobile_receiver sample_sender sample_parcels
              sample_agent VNone VNone VNone VNone PO2103_registered)
    as (_ & _ & _ & Hreach & _).
  apply Hreach; reflexivity.
Defined.

(** A code outside the registry: ValueError, and an empty trace. *)
Lemma unknown_service_code_rejected_witness :
  ("PO0000" ∉ dom SERVICES)
  ∧ run (create_shipment sample_objects (VStr "12345") "PO0000"
           sample_receiver sample_sender sample_parcels
           VNone VNone VNone VNone VNone)
    = (Raise (ValueError "Invalid 'service_id'."), []).
Proof.
  assert (Hsid : "PO0000" ∉ dom SERVICES)
    by (apply not_elem_of_dom_2; reflexivity).
  split; [exact Hsid|].
  apply (unknown_service_code_rejected sample_objects (VStr "12345")
           "PO0000" sample_receiver sample_sender sample_parcels
           VNone VNone VNone VNone VNone [] Hsid).
Defined.

(** "PO5041": the weighted parcels class is the one called. *)
Lemma parcels_variant_selected_witness :
  "PO5041" ∈ dom SERVICES
  ∧ Construct WeightedParcels sample_weighted_parcels
      ∈ (run (create_shipment sample_objects (VStr "12345") "PO5041"
                sample_receiver sample_sender sample_weighted_parcels
                VNone VNone VNone VNone VNone)).2.
Proof.
  split; [exact PO5041_registered|].
  destruct (parcels_variant_selected sample_objects (VStr "12345") "PO5041"
              sample_receiver sample_sender sample_weighted_parcels
              VNone VNone VNone VNone VNone PO5041_registered)
    as (_ & _ & _ & Hreach & _).
  apply Hreach; reflexivity.
Defined.

(** "PO5041" with a parcel entry that has no weight: the weighted parcels
    class refuses it. *)
Lemma sample_shipment_without_weight :
  run (create_shipment sample_objects (VStr "12345") "PO5041"
         sample_receiver sample_sender sample_parcels
         VNone VNone VNone VNone VNone)
  = (Raise (ValidationError WeightedParcels),
     [Construct Sender sample_sender;
      Construct SenderPartners (partners_data (VStr "12345"));
      Construct Receiver sample_receiver;
      Construct WeightedParcels sample_parcels]).
Proof. vm_compute. reflexivity. Qed.

(** The call of the docstring, with every optional argument omitted. *)
Lemma omitted_optionals_absent_witness :
  ∃ sh evs,
    run (create_shipment sample_objects (VStr "12345") "PO2102"
           sample_receiver sample_sender sample_parcels
           VNone VNone VNone VNone VNone) = (Ok sh, evs)
    ∧ shipment_fields sh !! "agent" = None
    ∧ shipment_fields sh !! "orderNo" = None
    ∧ shipment_fields sh !! "senderReference" = None
    ∧ shipment_fields sh !! "pdfConfig" = None.
Proof.
  destruct (create_shipment_returns sample_objects (VStr "12345") "PO2102"
              sample_receiver sample_sender sample_parcels
              VNone VNone VNone VNone VNone)
    as (sh & evs & Hrun);
    [exact PO2102_registered|reflexivity..|].
  exists sh, evs. split; [exact Hrun|].
  destruct (omitted_optionals_absent sample_objects (VStr "12345") "PO2102"
              sample_receiver sample_sender sample_parcels
              VNone VNone VNone VNone VNone sh evs Hrun)
    as (Ha & Ho & Hs & Hp & _).
  repeat split; auto.
Defined.

(** [get_locations(bounding_box=[None, 2.0, 3.0, 4.0])]: the request has
    three parameters and topLeftLat is not one of them. *)
Lemma None_corner_not_sent :
  ∃ p,
    requests_of (run (get_locations sample_objects
                        (sample_endpoint 200 sample_body)
                        None_corner_filters)).2
      = [(LOCATION_SERVICE_API_ENDPOINT, p)]
    ∧ p !! "topLeftLat" = None
    ∧ p !! "topLeftLng" = Some (VFloat float_2)
    ∧ p !! "bottomRightLat" = Some (VFloat float_3)
    ∧ p !! "bottomRightLng" = Some (VFloat float_4)
    ∧ size p = 3.
Proof.
  exists (list_to_map [("topLeftLng", VFloat float_2);
                       ("bottomRightLat", VFloat float_3);
                       ("bottomRightLng", VFloat float_4)]).
  split; [vm_compute; reflexivity|]. repeat split; reflexivity.
Qed.

(** [get_locations(bounding_box=[1.0, 2.0, 3.0, 4.0])] *)
Lemma bounding_box_four_parameters_witness :
  ∃ p,
    requests_of (run (get_locations sample_objects
                        (sample_endpoint 200 sample_body) box_filters)).2
      = [(LOCATION_SERVICE_API_ENDPOINT, p)]
    ∧ p !! "topLeftLat" = Some (VFloat float_1)
    ∧ p !! "topLeftLng" = Some (VFloat float_2)
    ∧ p !! "bottomRightLat" = Some (VFloat float_3)
    ∧ p !! "bottomRightLng" = Some (VFloat float_4)
    ∧ p !! "bounding_box" = None
    ∧ p !! "boundingBox" = None.
Proof.
  destruct (bounding_box_four_parameters sample_objects
              (sample_endpoint 200 sample_body) box_filters
              (VFloat float_1) (VFloat float_2) (VFloat float_3)
              (VFloat float_4) eq_refl)
    as (p & p0 & Hp & _ & H0 & H1 & H2 & H3 & Hb & HB & _).
  exists p. repeat split; assumption.
Defined.

(** The same call sends these four parameters and nothing else. *)
Lemma bounding_box_only_query :
  requests_of (run (get_locations sample_objects
                      (sample_endpoint 200 sample_body) box_filters)).2
  = [(LOCATION_SERVICE_API_ENDPOINT,
      list_to_map [("topLeftLat", VFloat float_1);
                   ("topLeftLng", VFloat float_2);
                   ("bottomRightLat", VFloat float_3);
                   ("bottomRightLng", VFloat float_4)])].
Proof. vm_compute. reflexivity. Qed.

(** [get_locations(top=0, zipcode="", strict_zip_code=0)]: 0 and the empty
    string are sent, the parameters left at None are not. *)
Lemma None_parameters_omitted_witness :
  ∃ p,
    requests_of (run (get_locations sample_objects
                        (sample_endpoint 200 sample_body) falsy_filters)).2
      = [(LOCATION_SERVICE_API_ENDPOINT, p)]
    ∧ p !! "top" = Some (VInt 0)
    ∧ p !! "zipCode" = Some (VStr "")
    ∧ p !! "countryCode" = None.
Proof.
  destruct (None_parameters_omitted sample_objects
              (sample_endpoint 200 sample_body) falsy_filters
              (initial_params falsy_filters) eq_refl)
    as ((p & Hp & Hnone & Hsent & _) & _).
  exists p. split; [exact Hp|]. split; [|split].
  - apply Hsent; reflexivity.
  - apply Hsent; reflexivity.
  - apply Hnone. right. reflexivity.
Defined.

(** The endpoint answers 300 with a body that holds locations: the status
    check of requests passes and the locations are returned. *)
Lemma status_300_returns :
  (∃ r, sample_endpoint 300 sample_body LOCATION_SERVICE_API_ENDPOINT ∅
          = Ok r
        ∧ status_code r = 300%Z
        ∧ raise_for_status r = requests_raise_for_status 300)
  ∧ run (get_locations sample_objects (sample_endpoint 300 sample_body)
           no_filters)
    = (Ok (Object Locations (VList [])),
       [HttpGet LOCATION_SERVICE_API_ENDPOINT ∅;
        Construct Locations (VList [])]).
Proof.
  split; [by eexists|]. vm_compute. reflexivity.
Qed.

(** The endpoint answers 404: the HTTPError of the status check comes out
    of [get_locations], after one request. *)
Lemma error_status_raises_witness :
  run (get_locations sample_objects (sample_endpoint 404 sample_body)
         no_filters)
  = (Raise (HTTPError 404), [HttpGet LOCATION_SERVICE_API_ENDPOINT ∅]).
Proof.
  destruct (error_status_raises sample_objects
              (sample_endpoint 404 sample_body) no_filters
              (initial_params no_filters)
              {| status_code := 404;
                 raise_for_status := requests_raise_for_status 404;
                 json := Ok sample_body |}
              eq_refl eq_refl)
    as (_ & Herror & _).
  apply Herror; [reflexivity|simpl; lia].
Defined.

(** [get_locations(bounding_box=[1.0, 2.0, 3.0])] and
    [get_locations(bounding_box="äbc")]: IndexError, nothing sent;
    [get_locations(bounding_box=[1.0, 2.0, 3.0, 4.0, 5])]: one request with
    the first four elements. *)
Lemma bounding_box_first_four_witness :
  run (get_locations sample_objects (sample_endpoint 200 sample_body)
         short_box_filters)
  = (Raise IndexError, [])
  ∧ run (get_locations sample_objects (sample_endpoint 200 sample_body)
           accented_box_filters)
    = (Raise IndexError, [])
  ∧ requests_of (run (get_locations sample_objects
                        (sample_endpoint 200 sample_body)
                        long_box_filters)).2
    = [(LOCATION_SERVICE_API_ENDPOINT,
        list_to_map [("topLeftLat", VFloat float_1);
                     ("topLeftLng", VFloat float_2);
                     ("bottomRightLat", VFloat float_3);
                     ("bottomRightLng", VFloat float_4)])].
Proof.
  split; [|split].
  - destruct (bounding_box_first_four sample_objects
                (sample_endpoint 200 sample_body) short_box_filters 3
                eq_refl) as [Hshort _].
    apply Hshort. lia.
  - destruct (bounding_box_first_four sample_objects
                (sample_endpoint 200 sample_body) accented_box_filters 3
                eq_refl) as [Hshort _].
    apply Hshort. lia.
  - destruct (bounding_box_first_four sample_objects
                (sample_endpoint 200 sample_body) long_box_filters 5
                eq_refl) as (_ & _ & _ & Hfour).
    rewrite (Hfour _ _ _ _ _ eq_refl). vm_compute. reflexivity.
Defined.

(** [get_locations()] against an endpoint that answers 200: one request
    without parameters, and the locations of the body come back. *)
Lemma get_locations_no_arguments :
  run (get_locations sample_objects (sample_endpoint 200 sample_body)
         no_filters)
  = (Ok (Object Locations (VList [])),
     [HttpGet LOCATION_SERVICE_API_ENDPOINT ∅;
      Construct Locations (VList [])]).
Proof. vm_compute. reflexivity. Qed.

(** * Further properties on the sample collaborators *)

(** X17: the national registry holds exactly the services listed as
    national, each with its description in SERVICES; every listed key is a
    registered service code, so [create_shipment] accepts it. *)
Theorem national_services_registered (k : string) :
  NATIONAL_SERVICES !! k
    = (if bool_decide (k ∈ NATIONAL_SERVICE_KEYS) then SERVICES !! k
       else None)
  ∧ (k ∈ NATIONAL_SERVICE_KEYS →
     is_Some (NATIONAL_SERVICES !! k)
     ∧ ∀ tr, _validate_create_shipment k tr = (Ok tt, tr)).
Proof.
  assert (NATIONAL_SERVICES !! k
          = (if bool_decide (k ∈ NATIONAL_SERVICE_KEYS) then SERVICES !! k
             else None)) as Hlookup.
  { apply option_eq. intros d. unfold NATIONAL_SERVICES.
    rewrite map_lookup_filter_Some. cbn [fst].
    case_bool_decide; split; try done.
    - by intros [? _].
    - by intros [_ ?]. }
  split; [exact Hlookup|].
  intros Hk.
  assert (is_Some (SERVICES !! k)) as Hregistered.
  { unfold NATIONAL_SERVICE_KEYS in Hk.
    repeat (apply elem_of_cons in Hk as [->|Hk]; [by eexists|]).
    apply elem_of_nil in Hk. destruct Hk. }
  split.
  - by rewrite Hlookup, (bool_decide_eq_true_2 _ Hk).
  - intros tr. unfold _validate_create_shipment.
    rewrite bool_decide_eq_true_2; [done|]. by apply elem_of_dom.
Qed.

(** The call of the docstring with an agent, an order number and a sender
    reference. *)
Lemma sample_shipment_returned :
  ∃ sh evs,
    run (create_shipment sample_objects (VStr "12345") "PO2102"
           sample_receiver sample_sender sample_parcels
           sample_agent (VStr "A-1") (VStr "ref") VNone VNone)
    = (Ok sh, evs).
Proof.
  apply create_shipment_returns;
    [exact PO2102_registered|reflexivity..].
Defined.

Lemma create_shipment_first_refusal_witness :
  (run (create_shipment sample_objects (VStr "12345") "PO2102"
          sample_receiver (VDict ∅) sample_parcels
          VNone VNone VNone VNone VNone)).2
  = [Construct Sender (VDict ∅)]
  ∧ (run (create_shipment sample_objects (VStr "12345") "PO2102"
            sample_receiver (VDict ∅) sample_parcels
            VNone VNone VNone VNone VNone)).1
    = Raise (ValidationError Sender).
Proof.
  destruct (create_shipment_first_refusal sample_objects (VStr "12345")
              "PO2102" sample_receiver (VDict ∅) sample_parcels
              VNone VNone VNone VNone VNone PO2102_registered)
    as [Htrace Hresult].
  split; [exact Htrace|exact Hresult].
Defined.

Lemma returned_shipment_required_fields_witness :
  ∃ sh evs,
    run (create_shipment sample_objects (VStr "12345") "PO2102"
           sample_receiver sample_sender sample_parcels
           sample_agent (VStr "A-1") (VStr "ref") VNone VNone)
    = (Ok sh, evs)
    ∧ shipment_fields sh !! "sender" = Some (FObj (Object Sender sample_sender)).
Proof.
  destruct sample_shipment_returned as (sh & evs & Hrun).
  exists sh, evs. split; [exact Hrun|].
  destruct (returned_shipment_required_fields sample_objects _ _ _ _ _ _ _
              _ _ _ sh evs Hrun) as (Hsender & _).
  exact Hsender.
Defined.

Lemma supplied_optionals_present_witness :
  ∃ sh evs,
    run (create_shipment sample_objects (VStr "12345") "PO2102"
           sample_receiver sample_sender sample_parcels
           sample_agent (VStr "A-1") (VStr "ref") VNone VNone)
    = (Ok sh, evs)
    ∧ shipment_fields sh !! "agent" = Some (FObj (Object Agent sample_agent))
    ∧ shipment_fields sh !! "orderNo" = Some (FRaw (VStr "A-1")).
Proof.
  destruct sample_shipment_returned as (sh & evs & Hrun).
  exists sh, evs. split; [exact Hrun|].
  destruct (supplied_optionals_present sample_objects _ _ _ _ _ _ _
              _ _ _ sh evs Hrun) as (Hagent & Horder & _).
  split; [apply Hagent|apply Horder]; reflexivity.
Defined.

Lemma returned_shipment_keys_witness :
  ∃ sh evs,
    run (create_shipment sample_objects (VStr "12345") "PO2102"
           sample_receiver sample_sender sample_parcels
           sample_agent (VStr "A-1") (VStr "ref") VNone VNone)
    = (Ok sh, evs)
    ∧ dom (shipment_fields sh)
      = list_to_set ["senderReference"; "orderNo"; "agent"; "sender";
                     "senderPartners"; "receiver"; "parcels"; "service"].
Proof.
  destruct sample_shipment_returned as (sh & evs & Hrun).
  exists sh, evs. split; [exact Hrun|].
  rewrite (returned_shipment_keys sample_objects _ _ _ _ _ _ _
             _ _ _ sh evs Hrun).
  reflexivity.
Defined.

Lemma variants_only_for_national_services_witness :
  "PO5041" ∈ NATIONAL_SERVICE_KEYS ∧ "PO5041" ∈ dom NATIONAL_SERVICES.
Proof.
  destruct (variants_only_for_national_services "PO5041" VNone
              (or_intror eq_refl)) as (Hkeys & _ & Hnational & _).
  split; [exact Hkeys|exact Hnational].
Defined.

(** "PO2104" with the receiver of the docstring, which has no mobile
    number. *)
Lemma mobile_receiver_needs_mobile_witness :
  run (create_shipment sample_objects (VStr "12345") "PO2104"
         sample_receiver sample_sender sample_parcels
         VNone VNone VNone VNone VNone)
  = (Raise (ValidationError MobileReceiver),
     [Construct Sender sample_sender;
      Construct SenderPartners (partners_data (VStr "12345"));
      Construct MobileReceiver sample_receiver]).
Proof.
  destruct (mobile_receiver_needs_mobile sample_objects (VStr "12345")
              "PO2104" sample_receiver sample_sender sample_parcels
              VNone VNone VNone VNone VNone _
              (or_introl eq_refl) eq_refl eq_refl eq_refl)
    as [_ Hraises].
  apply Hraises; reflexivity.
Defined.

Lemma get_locations_returns_witness :
  run (get_locations sample_objects (sample_endpoint 200 sample_body)
         no_filters)
  = (Ok (Object Locations (VList [])),
     [HttpGet LOCATION_SERVICE_API_ENDPOINT ∅;
      Construct Locations (VList [])]).
Proof.
  exact (get_locations_returns sample_objects
           (sample_endpoint 200 sample_body) no_filters
           (initial_params no_filters) _ _ (VList [])
           eq_refl eq_refl eq_refl eq_refl eq_refl eq_refl).
Defined.

Lemma get_locations_client_errors_witness :
  run (get_locations sample_objects unreachable_endpoint no_filters)
  = (Raise (RequestException "connection refused"),
     [HttpGet LOCATION_SERVICE_API_ENDPOINT ∅]).
Proof.
  exact (get_locations_client_errors sample_objects unreachable_endpoint
           no_filters (initial_params no_filters) _
           eq_refl (or_introl eq_refl)).
Defined.

(** The endpoint answers 200 with an empty JSON object. *)
Lemma get_locations_malformed_body_witness :
  run (get_locations sample_objects (sample_endpoint 200 (VDict ∅))
         no_filters)
  = (Raise (KeyError "locations"),
     [HttpGet LOCATION_SERVICE_API_ENDPOINT ∅]).
Proof.
  destruct (get_locations_malformed_body sample_objects
              (sample_endpoint 200 (VDict ∅)) no_filters
              (initial_params no_filters) _ _
              eq_refl eq_refl eq_refl eq_refl)
    as [Hmissing _].
  exact (Hmissing ∅ eq_refl eq_refl).
Defined.

(** [strict_zip_code=0] and [strict_zip_code=False] *)
Lemma strict_zip_code_by_truthiness_witness :
  get_locations sample_objects (sample_endpoint 200 sample_body)
    (with_strict_zip_code no_filters (VInt 0)) []
  = get_locations sample_objects (sample_endpoint 200 sample_body)
      (with_strict_zip_code no_filters (VBool false)) [].
Proof.
  exact (strict_zip_code_by_truthiness sample_objects
           (sample_endpoint 200 sample_body) no_filters
           (VInt 0) (VBool false) [] eq_refl).
Defined.

(** [get_locations(bounding_box=5)] *)
Lemma bounding_box_not_subscriptable_witness :
  run (get_locations sample_objects (sample_endpoint 200 sample_body)
         (with_bounding_box no_filters (VInt 5)))
  = (Raise TypeError, []).
Proof.
  exact (bounding_box_not_subscriptable sample_objects
           (sample_endpoint 200 sample_body)
           (with_bounding_box no_filters (VInt 5))
           (or_intror (or_introl (ex_intro _ 5%Z eq_refl)))).
Defined.

(** A parcel list with weights, accepted by both classes. *)
Lemma WeightedParcels_stricter_witness :
  validate (schema_of sample_objects Parcels) sample_weighted_parcels = true.
Proof.
  exact (WeightedParcels_stricter sample_objects sample_weighted_parcels
           eq_refl).
Defined.
